(** * AuditAI front end: the progress tracker of [frontend/src/app/page.tsx]

    The page keeps an activity log of agent notifications, fed either by a
    server-sent event stream or, when the stream stalls, by a locally
    generated timeline.  This file embeds the component's state and its
    callbacks as functions on an explicit state record and proves the
    properties the specification states about them.

    Conventions.
    - A JavaScript string is a [string] holding its UTF-8 encoding; the
      needles and patterns of the page are ASCII, so [includes] and the
      pattern of the total read the same on either encoding.
    - Every callback runs to completion (the page is single threaded), so a
      callback is a function [State -> State]; the one reading of the clock
      that [pushUpdate] makes in it is the argument [now].
    - A callback that throws inside a [try] keeps the writes it made before:
      the functions that build a message return [None] when they throw.
    - One session is modelled: from [handleSubmit] on, with the stream and the
      timers it creates. *)

From Stdlib Require Import ZArith NArith Bool Ascii Lia.
From stdpp Require Import base strings list gmap pretty.

Open Scope string_scope.
Open Scope list_scope.
Open Scope nat_scope.

(** ** Data model *)

(** [interface AgentUpdate]. *)
Record AgentUpdate := mkUpdate {
  agent : string;
  status : string;
  message : string;
  timestamp : string
}.

(** The submitted [File]: [text] is what [file.text()] resolves to, [None]
    when it rejects. *)
Record File := mkFile {
  name : string;
  type : string;
  text : option string
}.

(** One element of the [steps] array of [simulateAgentUpdates]. *)
Record Step := mkStep {
  step_agent : string;
  step_status : string;
  step_message : string;
  delay : N
}.

(** The callbacks handed to [setTimeout]. *)
Inductive Callback :=
  | Watchdog
  | SimulateAgentUpdates
  | RunStep (s : Step).

Record Timer := mkTimer {
  timeout : N;
  callback : Callback
}.

(** [EventSource.readyState] of the session's stream; [NotOpened] before
    [startRealTimeStream] has run, CONNECTING and OPEN are both [Open]. *)
Inductive ReadyState := NotOpened | Open | Closed.

(** The component's state and refs.  [demoModeRef] stands for both the
    [demoMode] state and [demoModeRef], which [setDemoModeFlag] always sets
    together.  [eventSource] is the stream of the running session and
    [timers] the pending timers that act on it.  The submit button is
    disabled while [loading] is on, and when [loading] goes off the stream,
    if one was opened, is closed and a fallback that ran has run its last
    step: of an earlier session only its watchdog can be pending, which
    tests its own, closed, stream and does nothing; such a timer is not in
    [timers]. *)
Record State := mkState {
  file : option File;
  loading : bool;
  expenseId : option string;
  updates : list AgentUpdate;
  error : option string;
  demoModeRef : bool;
  hasRealUpdatesRef : bool;
  emittedUpdatesRef : gset string;
  eventSource : ReadyState;
  timers : list Timer
}.


Definition setLoading (b : bool) (st : State) : State :=
  mkState (file st) b (expenseId st) (updates st) (error st)
    (demoModeRef st) (hasRealUpdatesRef st) (emittedUpdatesRef st)
    (eventSource st) (timers st).

Definition setExpenseId (i : option string) (st : State) : State :=
  mkState (file st) (loading st) i (updates st) (error st)
    (demoModeRef st) (hasRealUpdatesRef st) (emittedUpdatesRef st)
    (eventSource st) (timers st).

Definition setUpdates (us : list AgentUpdate) (st : State) : State :=
  mkState (file st) (loading st) (expenseId st) us (error st)
    (demoModeRef st) (hasRealUpdatesRef st) (emittedUpdatesRef st)
    (eventSource st) (timers st).

Definition setError (e : option string) (st : State) : State :=
  mkState (file st) (loading st) (expenseId st) (updates st) e
    (demoModeRef st) (hasRealUpdatesRef st) (emittedUpdatesRef st)
    (eventSource st) (timers st).

Definition setDemoModeFlag (value : bool) (st : State) : State :=
  mkState (file st) (loading st) (expenseId st) (updates st) (error st)
    value (hasRealUpdatesRef st) (emittedUpdatesRef st)
    (eventSource st) (timers st).

Definition setHasRealUpdates (b : bool) (st : State) : State :=
  mkState (file st) (loading st) (expenseId st) (updates st) (error st)
    (demoModeRef st) b (emittedUpdatesRef st)
    (eventSource st) (timers st).

Definition setEmitted (s : gset string) (st : State) : State :=
  mkState (file st) (loading st) (expenseId st) (updates st) (error st)
    (demoModeRef st) (hasRealUpdatesRef st) s
    (eventSource st) (timers st).

Definition setReadyState (r : ReadyState) (st : State) : State :=
  mkState (file st) (loading st) (expenseId st) (updates st) (error st)
    (demoModeRef st) (hasRealUpdatesRef st) (emittedUpdatesRef st)
    r (timers st).

Definition setTimers (ts : list Timer) (st : State) : State :=
  mkState (file st) (loading st) (expenseId st) (updates st) (error st)
    (demoModeRef st) (hasRealUpdatesRef st) (emittedUpdatesRef st)
    (eventSource st) ts.

(** [setTimeout(cb, ms)]: the timer joins the pending ones. *)
Definition setTimeout (cb : Callback) (ms : N) (st : State) : State :=
  setTimers (timers st ++ [mkTimer ms cb]) st.

(** ** The update log *)

(** The dedup key [`${agent}|${status}|${message}`]. *)
Definition update_key (agent status message : string) : string :=
  agent +:+ "|" +:+ status +:+ "|" +:+ message.

Definition pushUpdate (now agent status message : string) (st : State) : State :=
  let key := update_key agent status message in
  if bool_decide (key ∈ emittedUpdatesRef st) then st
  else
    setUpdates (updates st ++ [mkUpdate agent status message now])
      (setEmitted ({[key]} ∪ emittedUpdatesRef st) st).

(** The reset at the head of [handleSubmit]. *)
Definition resetForUpload (st : State) : State :=
  setEmitted ∅
    (setHasRealUpdates false
      (setDemoModeFlag false
        (setExpenseId None
          (setError None
            (setUpdates [] (setLoading true st)))))).

(** The identity of a notification for deduplication. *)
Definition triple (u : AgentUpdate) : string * string * string :=
  (agent u, status u, message u).

(** One call of [pushUpdate], with the clock reading it makes. *)
Record Append := mkAppend {
  app_now : string;
  app_agent : string;
  app_status : string;
  app_message : string
}.

Definition append (st : State) (a : Append) : State :=
  pushUpdate (app_now a) (app_agent a) (app_status a) (app_message a) st.

Definition appendAll (ops : list Append) (st : State) : State :=
  foldl append st ops.

(** Every logged notification has its key in the emitted set. *)
Definition log_synced (st : State) : Prop :=
  ∀ u, u ∈ updates st →
    update_key (agent u) (status u) (message u) ∈ emittedUpdatesRef st.

(** ** The JavaScript runtime

    IEEE doubles and the Unicode case tables are the platform's: the model
    takes them as an interface and is proved for every implementation. *)
Class JsRuntime := {
  number : Type;
  NaN : number;
  number_of_nat : nat → number;
  number_gt : number → number → bool;
  number_lt : number → number → bool;
  number_truthy : number → bool;
  number_toString : number → string;
  isFinite : number → bool;
  toFixed : number → nat → string;
  parseFloat : string → number;
  toLowerCase : string → string;
  substring : string → nat → nat → string
}.

(** The double quote character of the messages that quote a merchant or a
    category. *)
Definition dquote : string := String "034"%char EmptyString.

(** [join] on strings that are already converted. *)
Fixpoint join_strings (sep : string) (l : list string) : string :=
  match l with
  | [] => EmptyString
  | [x] => x
  | x :: rest => x +:+ sep +:+ join_strings sep rest
  end.

(** Conversions that can throw return [None]. *)
Definition traverse {A B} (f : A → option B) : list A → option (list B) :=
  fix go l :=
    match l with
    | [] => Some []
    | x :: rest =>
        match f x, go rest with
        | Some y, Some ys => Some (y :: ys)
        | _, _ => None
        end
    end.

Section Values.
Context {rt : JsRuntime}.

(** The values [JSON.parse] returns, and [undefined].  An object is the
    list of its own properties, each key once. *)
#[warnings="-register-all"]
Inductive jsval :=
  | VUndefined
  | VNull
  | VBool (b : bool)
  | VNum (n : number)
  | VStr (s : string)
  | VArr (items : list jsval)
  | VObj (props : list (string * jsval)).

Fixpoint own (k : string) (props : list (string * jsval)) : option jsval :=
  match props with
  | [] => None
  | (k', v) :: rest => if String.eqb k k' then Some v else own k rest
  end.

Definition nullish (v : jsval) : bool :=
  match v with VUndefined | VNull => true | _ => false end.

Definition truthy (v : jsval) : bool :=
  match v with
  | VUndefined | VNull => false
  | VBool b => b
  | VNum n => number_truthy n
  | VStr s => negb (String.eqb s EmptyString)
  | VArr _ | VObj _ => true
  end.

(** [v.k] on a value that is not nullish.  None of the keys the page reads
    names a property of a built-in prototype, so anything but an object's
    own property reads as [undefined]. *)
Definition prop (k : string) (v : jsval) : jsval :=
  match v with
  | VObj props => default VUndefined (own k props)
  | _ => VUndefined
  end.

(** [v.k]: a TypeError on [null] and [undefined]. *)
Definition get (k : string) (v : jsval) : option jsval :=
  if nullish v then None else Some (prop k v).

(** [v?.k]. *)
Definition opt_get (k : string) (v : jsval) : jsval :=
  if nullish v then VUndefined else prop k v.

(** [v ?? d]. *)
Definition coalesce (v d : jsval) : jsval := if nullish v then d else v.

(** [v === lit] for a string literal. *)
Definition is_string (lit : string) (v : jsval) : bool :=
  match v with VStr s => String.eqb s lit | _ => false end.

(** The string conversion of template literals and of [join].  A parsed
    object has no callable [toString] of its own: with that key it cannot be
    converted (TypeError), without it it reads [[object Object]]. *)
Fixpoint ToString (v : jsval) : option string :=
  match v with
  | VUndefined => Some "undefined"
  | VNull => Some "null"
  | VBool b => Some (if b then "true" else "false")
  | VNum n => Some (number_toString n)
  | VStr s => Some s
  | VArr items =>
      join_strings "," <$>
        traverse (λ x, if nullish x then Some EmptyString else ToString x) items
  | VObj props =>
      match own "toString" props with
      | Some _ => None
      | None => Some "[object Object]"
      end
  end.

(** [items.join(sep)]. *)
Definition join (sep : string) (items : list jsval) : option string :=
  join_strings sep <$>
    traverse (λ x, if nullish x then Some EmptyString else ToString x) items.

Definition formatCurrency (value : jsval) : string :=
  let num :=
    match value with
    | VNum n => n
    | VStr s => parseFloat s
    | _ => NaN
    end in
  if negb (isFinite num) then "0.00" else toFixed num 2.

End Values.

(** ** The live stream *)

Definition markRealUpdate (st : State) : State :=
  setDemoModeFlag false (setHasRealUpdates true st).

Definition triggerDemoMode (now message : string) (st : State) : State :=
  if hasRealUpdatesRef st || demoModeRef st then st
  else
    setTimeout SimulateAgentUpdates 500%N
      (pushUpdate now "System" "processing" message (setDemoModeFlag true st)).

(** [eventSource.close()]. *)
Definition close (st : State) : State := setReadyState Closed st.

Section Stream.
Context {rt : JsRuntime}.

(** The message of the notification a frame is turned into; [None] when
    building it throws, which the [catch] of [onmessage] swallows. *)
Definition extractedMessage (extraction : jsval) : option string :=
  merchant ← ToString (coalesce (prop "merchant" extraction) (VStr "Unknown"));
  category ← ToString (coalesce (prop "category" extraction) (VStr "General"));
  Some ("✅ Vision analysis complete: Merchant=" +:+ dquote +:+ merchant
        +:+ dquote +:+ ", Amount=$" +:+ formatCurrency (prop "total_amount" extraction)
        +:+ ", Category=" +:+ dquote +:+ category +:+ dquote).

Definition policyCheckedMessage (policy : jsval) : option string :=
  let compliant := truthy (prop "compliant" policy) in
  reasoning ← ToString
    (coalesce (prop "reasoning" policy)
       (VStr (if compliant then "Compliant with policy." else "Violation detected.")));
  Some ((if compliant then "✅" else "❌") +:+ " " +:+ reasoning).

Definition anomalyCheckedMessage (anomaly : jsval) : option string :=
  if truthy (prop "anomalies_detected" anomaly) then
    joined ←
      match prop "anomalies" anomaly with
      | VUndefined | VNull => Some EmptyString
      | VArr items => join "; " items
      | _ => None
      end;
    risk ← ToString (coalesce (prop "risk_level" anomaly) (VStr "unknown"));
    Some ("⚠️ "
          +:+ (if String.eqb joined EmptyString then "Potential anomalies detected." else joined)
          +:+ " (risk: " +:+ risk +:+ ")")
  else Some "✅ No anomalies detected.".

Definition remediationCompleteMessage (remediation : jsval) : option string :=
  if truthy (prop "needs_remediation" remediation) then
    match prop "recommendations" remediation with
    | VArr items =>
        actions ← traverse (get "action") items;
        joined ← join "; " (take 2 actions);
        Some ("💡 Recommendations: " +:+ joined)
    | _ => None
    end
  else Some "✅ No remediation needed.".

(** [handleFinalStatus].  The summary pushed is stored by its string
    conversion, the form in which the dedup key holds it. *)
Definition handleFinalStatus (now : string) (finalStatus doc : jsval) (st : State) : State :=
  let st := markRealUpdate st in
  let synthesis := opt_get "synthesis" (opt_get "findings" doc) in
  let summary :=
    if nullish (opt_get "summary" synthesis) then
      if is_string "APPROVED" finalStatus then Some "🎉 All checks passed."
      else if is_string "REJECTED" finalStatus then Some "❌ Policy violation detected."
      else if is_string "NEEDS_REVIEW" finalStatus then Some "⚠️ Needs manual review."
      else s ← ToString finalStatus; Some ("Status: " +:+ s)
    else ToString (opt_get "summary" synthesis) in
  let shown :=
    summary ← summary;
    if truthy (opt_get "summary" synthesis)
    then s ← ToString (opt_get "summary" synthesis); Some ("🎉 " +:+ s)
    else Some summary in
  match shown with
  | None => st
  | Some message =>
      close (setLoading false (pushUpdate now "Synthesis Agent" "complete" message st))
  end.

(** A stage whose notification needs its findings. *)
Definition stageWithFindings (now agent : string) (found : jsval)
    (render : jsval → option string) (st : State) : State :=
  if truthy found then
    let st := markRealUpdate st in
    match render found with
    | Some message => pushUpdate now agent "complete" message st
    | None => st
    end
  else st.

(** [data.findings || {}]. *)
Definition findingsOf (data : jsval) : jsval :=
  if truthy (prop "findings" data) then prop "findings" data else VObj [].

(** [eventSource.onmessage] on the value [JSON.parse(event.data)]. *)
Definition onmessage (now : string) (data : jsval) (st : State) : State :=
  if is_string "TIMEOUT" (opt_get "status" data) then
    close
      (if negb (hasRealUpdatesRef st)
       then triggerDemoMode now "⏱️ Agents processing... Showing preview based on receipt analysis." st
       else st)
  else if truthy (opt_get "error" data) then
    match ToString (opt_get "error" data) with
    | None => st
    | Some e => close (setLoading false (pushUpdate now "System" "error" ("❌ " +:+ e) st))
    end
  else
    match get "status" data with
    | None => st
    | Some s =>
      let status := if truthy s then s else VStr EmptyString in
      let findings := findingsOf data in
      if is_string "DONE" status && truthy (prop "finalStatus" data) then
        handleFinalStatus now (prop "finalStatus" data) data st
      else if is_string "INGESTED" status then
        pushUpdate now "Orchestrator" "processing" "Receipt ingested. Agents spinning up..."
          (markRealUpdate st)
      else if is_string "EXTRACTED" status then
        stageWithFindings now "Extraction Agent" (prop "extraction" findings)
          extractedMessage st
      else if is_string "EXTRACTION_FAILED" status then
        close (setLoading false
          (pushUpdate now "Extraction Agent" "error"
             "❌ Extraction failed. Please verify the receipt image quality and retry."
             (markRealUpdate st)))
      else if is_string "POLICY_CHECKED" status then
        stageWithFindings now "Policy Agent" (prop "policy" findings) policyCheckedMessage st
      else if is_string "POLICY_CHECK_FAILED" status then
        close (setLoading false
          (pushUpdate now "Policy Agent" "error"
             "❌ Policy evaluation failed. Please try again." (markRealUpdate st)))
      else if is_string "ANOMALY_CHECKED" status then
        stageWithFindings now "Anomaly Agent" (prop "anomaly" findings) anomalyCheckedMessage st
      else if is_string "ANOMALY_CHECK_FAILED" status then
        pushUpdate now "Anomaly Agent" "error" "❌ Anomaly detection failed."
          (markRealUpdate st)
      else if is_string "REMEDIATION_COMPLETE" status then
        stageWithFindings now "Remediation Agent" (prop "remediation" findings)
          remediationCompleteMessage st
      else if is_string "APPROVED" status || is_string "REJECTED" status
              || is_string "NEEDS_REVIEW" status || is_string "FAILED" status then
        handleFinalStatus now status data st
      else st
    end.

(** [eventSource.onerror]. *)
Definition onerror (now : string) (st : State) : State :=
  if hasRealUpdatesRef st then close st
  else
    triggerDemoMode now
      "💡 Worker Pools queued. Showing intelligent simulation based on receipt content..."
      (close st).

End Stream.

(** The callback of the 30 second timer.  It tests the stream of the state,
    the one stream of the model: the watchdog of an earlier session, which in
    the page tests the stream of that session, is not among [timers]. *)
Definition watchdog (now : string) (st : State) : State :=
  match eventSource st with
  | Closed => st
  | _ =>
      close
        (if negb (hasRealUpdatesRef st)
         then triggerDemoMode now "⏱️ Agents taking longer than expected. Showing preview while we wait." st
         else st)
  end.

Definition startRealTimeStream (st : State) : State :=
  setTimeout Watchdog 30000%N (setReadyState Open st).

(** ** The demo fallback generator *)

(** [s.startsWith(start)]. *)
Fixpoint startsWith (start s : string) : bool :=
  match start with
  | EmptyString => true
  | String a start' =>
      match s with
      | EmptyString => false
      | String b s' => Ascii.eqb a b && startsWith start' s'
      end
  end.

(** [hay.includes(needle)]. *)
Fixpoint includes (needle hay : string) : bool :=
  startsWith needle hay ||
  match hay with
  | EmptyString => false
  | String _ rest => includes needle rest
  end.

Fixpoint endsWith (suffix s : string) : bool :=
  String.eqb s suffix ||
  match s with
  | EmptyString => false
  | String _ rest => endsWith suffix rest
  end.

(** *** The pattern of [totalMatch]

    [Total] whatever the case, one or more of [[:\s]], an optional dollar
    sign, and the captured group: one or more of [[\d,]], an optional dot,
    any number of digits.  The character sets that follow one another are
    disjoint, so the greedy reading is the only one: backtracking never finds
    another. *)

Definition code (c : ascii) : N := N_of_ascii c.

Definition is_digit (c : ascii) : bool := (48 <=? code c)%N && (code c <=? 57)%N.

Definition is_digit_or_comma (c : ascii) : bool :=
  is_digit c || Ascii.eqb c ","%char.

(** A letter of the pattern under the [i] flag. *)
Definition letter (lower upper c : ascii) : bool :=
  Ascii.eqb c lower || Ascii.eqb c upper.

(** [[:\s]] on one byte: the colon, TAB, LF, VT, FF, CR and the space. *)
Definition separator1 (c : ascii) : bool :=
  Ascii.eqb c ":"%char || ((9 <=? code c)%N && (code c <=? 13)%N) || (code c =? 32)%N.

(** [\s] on two bytes: U+00A0. *)
Definition space2 (c1 c2 : ascii) : bool :=
  (code c1 =? 194)%N && (code c2 =? 160)%N.

(** [\s] on three bytes: U+1680, U+2000 to U+200A, U+2028, U+2029, U+202F,
    U+205F, U+3000 and U+FEFF. *)
Definition space3 (c1 c2 c3 : ascii) : bool :=
  let '(a, b, c) := (code c1, code c2, code c3) in
  ((a =? 225) && (b =? 154) && (c =? 128))%N
  || ((a =? 226) && (b =? 128)
      && (((128 <=? c) && (c <=? 138)) || (c =? 168) || (c =? 169) || (c =? 175)))%N
  || ((a =? 226) && (b =? 129) && (c =? 159))%N
  || ((a =? 227) && (b =? 128) && (c =? 128))%N
  || ((a =? 239) && (b =? 187) && (c =? 191))%N.

(** One character of [[:\s]] at the head of [s]: what follows it. *)
Definition separator (s : string) : option string :=
  match s with
  | String c1 r1 =>
      if separator1 c1 then Some r1
      else
        match r1 with
        | String c2 r2 =>
            if space2 c1 c2 then Some r2
            else
              match r2 with
              | String c3 r3 => if space3 c1 c2 c3 then Some r3 else None
              | EmptyString => None
              end
        | EmptyString => None
        end
  | EmptyString => None
  end.

(** [[:\s]*], greedy. *)
Fixpoint skipSeparators (s : string) : string :=
  match s with
  | String c1 r1 =>
      if separator1 c1 then skipSeparators r1
      else
        match r1 with
        | String c2 r2 =>
            if space2 c1 c2 then skipSeparators r2
            else
              match r2 with
              | String c3 r3 => if space3 c1 c2 c3 then skipSeparators r3 else s
              | EmptyString => s
              end
        | EmptyString => s
        end
  | EmptyString => s
  end.

(** The longest prefix of characters in a set, and the rest. *)
Fixpoint span (p : ascii → bool) (s : string) : string * string :=
  match s with
  | String c rest =>
      if p c then let '(taken, remaining) := span p rest in (String c taken, remaining)
      else (EmptyString, s)
  | EmptyString => (EmptyString, EmptyString)
  end.

(** [Total] under the [i] flag at the head of [s]: what follows it. *)
Definition totalWord (s : string) : option string :=
  match s with
  | String c1 (String c2 (String c3 (String c4 (String c5 rest)))) =>
      if letter "t" "T" c1 && letter "o" "O" c2 && letter "t" "T" c3
         && letter "a" "A" c4 && letter "l" "L" c5
      then Some rest else None
  | _ => None
  end.

(** The pattern matched at the head of [s]: its group 1. *)
Definition totalAt (s : string) : option string :=
  after_word ← totalWord s;
  after_one ← separator after_word;
  let after_seps := skipSeparators after_one in
  let after_dollar :=
    match after_seps with
    | String c rest => if Ascii.eqb c "$"%char then rest else after_seps
    | EmptyString => after_seps
    end in
  let '(whole, after_whole) := span is_digit_or_comma after_dollar in
  if String.eqb whole EmptyString then None
  else
    let '(dot, after_dot) :=
      match after_whole with
      | String c rest => if Ascii.eqb c "."%char then (".", rest) else (EmptyString, after_whole)
      | EmptyString => (EmptyString, after_whole)
      end in
    Some (whole +:+ dot +:+ fst (span is_digit after_dot)).

(** [content.match(...)]: group 1 of the leftmost match. *)
Fixpoint totalMatch (content : string) : option string :=
  match totalAt content with
  | Some group => Some group
  | None =>
      match content with
      | EmptyString => None
      | String _ rest => totalMatch rest
      end
  end.

(** [s.replace(',', '')]: the first comma goes. *)
Fixpoint dropFirstComma (s : string) : string :=
  match s with
  | EmptyString => EmptyString
  | String c rest => if Ascii.eqb c ","%char then rest else String c (dropFirstComma rest)
  end.

(** The pattern matches at a position of [before], read in [before]
    followed by [rest]. *)
Fixpoint matchesWithin (before rest : string) : bool :=
  match before with
  | EmptyString => false
  | String _ later =>
      bool_decide (is_Some (totalAt (before +:+ rest))) || matchesWithin later rest
  end.

Definition startsWithDigit (s : string) : bool :=
  match s with
  | String c _ => is_digit c
  | EmptyString => false
  end.

(** *** Classification of the receipt *)

(** The outcome of the merchant chain of [simulateAgentUpdates]. *)
Record Verdict := mkVerdict {
  merchant : string;
  category : string;
  policyResult : string;
  policyMessage : string
}.

Section Fallback.
Context {rt : JsRuntime}.

Definition fileName (file : option File) : string :=
  match file with
  | Some f => toLowerCase (name f)
  | None => EmptyString
  end.

Definition isImage (file : option File) : bool :=
  match file with
  | Some f => startsWith "image/" (type f)
  | None => false
  end
  || endsWith ".jpg" (fileName file) || endsWith ".jpeg" (fileName file)
  || endsWith ".png" (fileName file) || endsWith ".gif" (fileName file)
  || endsWith ".webp" (fileName file).

(** The text read from a file that is not an image; empty when reading
    fails. *)
Definition fileContent (file : option File) : string :=
  match file with
  | Some f => if negb (isImage file) then default EmptyString (text f) else EmptyString
  | None => EmptyString
  end.

Definition isStarbucks (file : option File) : bool :=
  includes "starbucks" (fileName file) || includes "STARBUCKS" (fileContent file)
  || includes "Starbucks" (fileContent file).

Definition isUber (file : option File) : bool :=
  includes "uber" (fileName file) || includes "taxi" (fileName file)
  || includes "UBER" (fileContent file) || includes "Uber" (fileContent file).

Definition isBar (file : option File) : bool :=
  includes "bar" (fileName file) || includes "alcohol" (fileName file)
  || includes "BAR" (fileContent file) || includes "WINE" (fileContent file)
  || includes "BEER" (fileContent file) || includes "VODKA" (fileContent file)
  || includes "Alcohol" (fileContent file).

Definition isStaples (file : option File) : bool :=
  includes "staples" (fileName file) || includes "office" (fileName file)
  || includes "STAPLES" (fileContent file) || includes "Staples" (fileContent file).

Definition amount (file : option File) : string :=
  match totalMatch (fileContent file) with
  | Some group => dropFirstComma group
  | None =>
      if isImage file then
        if isStarbucks file then "25.55"
        else if isUber file then "39.53"
        else if isBar file then "93.74"
        else if isStaples file then "102.84"
        else "45.00"
      else "0.00"
  end.

Definition verdict (file : option File) : Verdict :=
  if isStarbucks file then
    if number_gt (parseFloat (amount file)) (number_of_nat 50) then
      mkVerdict "Starbucks" "Meals & Refreshments" "flagged"
        "⚠️ Amount exceeds meal guideline ($50 limit). Requires manager approval."
    else if number_lt (parseFloat (amount file)) (number_of_nat 30) then
      mkVerdict "Starbucks" "Meals & Refreshments" "approved"
        "✅ Within team meal limit ($50). Business purpose documented. Citations: Policy §2.2"
    else
      mkVerdict "Starbucks" "Meals & Refreshments" "review"
        "⚠️ Borderline amount. Recommend adding attendee list for approval."
  else if isUber file then
    mkVerdict "Uber" "Transportation" "approved"
      "✅ Within taxi limit ($75). Business purpose valid. Citations: Policy §3.1"
  else if isBar file then
    mkVerdict "Bar/Restaurant" "Meals" "rejected"
      ("❌ **POLICY VIOLATION** - Alcoholic beverages detected. Per Policy §6.1: "
       +:+ dquote +:+ "Alcohol NOT reimbursable under any circumstances" +:+ dquote)
  else if isStaples file then
    mkVerdict "Staples" "Office Supplies" "approved"
      "✅ Office supplies approved. Within $500 threshold. Citations: Policy §5.1"
  else
    mkVerdict "Unknown" "General" "approved" "✅ Compliant with company policy.".

(** The summary of the extraction step, after its first words. *)
Definition extracted (file : option File) : string :=
  "Merchant=" +:+ dquote +:+ merchant (verdict file) +:+ dquote
  +:+ ", Amount=$" +:+ amount file
  +:+ ", Category=" +:+ dquote +:+ category (verdict file) +:+ dquote.

(** The [steps] array; [jitter] is the value of
    [Math.floor(Math.random() * 5)]. *)
Definition steps (file : option File) (jitter : nat) : list Step :=
  let result := policyResult (verdict file) in
  [ mkStep "Extraction Agent" "processing"
      (if isImage file
       then "🔍 Using Gemini 2.5 Flash Preview to analyze receipt image..."
       else "🔍 Processing receipt text with Gemini 2.5 Flash Preview...")
      1000;
    mkStep "Extraction Agent" "complete"
      (if isImage file
       then "✅ Vision analysis complete: " +:+ extracted file
       else "✅ Extracted: " +:+ extracted file)
      3500;
    mkStep "Policy Agent" "processing"
      "📋 Checking compliance using ADK + Gemini 2.5 Flash-Lite Preview..." 4500;
    mkStep "Policy Agent" "complete" (policyMessage (verdict file)) 7000;
    mkStep "Anomaly Agent" "processing"
      "🔎 Scanning for duplicates, fraud patterns, suspicious amounts..." 7500;
    mkStep "Anomaly Agent" "complete"
      (if isBar file
       then "⚠️ High-risk category detected (alcohol). Flagged for review."
       else "✅ No anomalies detected. Transaction appears legitimate.")
      9000;
    mkStep "Remediation Agent" "processing"
      "🛠️ Checking if any remediation needed..." 9500;
    mkStep "Remediation Agent" "complete"
      (if String.eqb result "rejected"
       then "💡 Recommendation: Separate food items ($30) from alcohol ($42). Resubmit food portion only."
       else if String.eqb result "review"
       then "💡 Recommendation: Add meeting attendees list and agenda to support approval."
       else "✅ No issues found. Approved for reimbursement.")
      10500;
    mkStep "Synthesis Agent" "processing"
      "📊 Aggregating findings and generating final verdict..." 11000;
    mkStep "Synthesis Agent" "complete"
      (if String.eqb result "rejected"
       then "❌ **REJECTED** - Policy violation detected. Amount: $" +:+ amount file
            +:+ ". Requires remediation."
       else if String.eqb result "review"
       then "⚠️ **NEEDS REVIEW** - Additional documentation required. Amount: $"
            +:+ amount file +:+ "."
       else "🎉 **APPROVED** - All checks passed. Amount: $" +:+ amount file
            +:+ ". Confidence: " +:+ pretty (95 + jitter)%nat +:+ "%")
      13000 ]%N.

(** [simulateAgentUpdates]: one timer per step.  The file is the one of the
    state, which no signal of a session changes; in the page it is the file
    of the render that submitted. *)
Definition simulateAgentUpdates (jitter : nat) (st : State) : State :=
  foldl (λ st step, setTimeout (RunStep step) (delay step) st) st
    (steps (file st) jitter).

End Fallback.

(** The callback of a step's timer. *)
Definition runStep (now : string) (step : Step) (st : State) : State :=
  let st := pushUpdate now (step_agent step) (step_status step) (step_message step) st in
  if String.eqb (step_agent step) "Synthesis Agent"
     && String.eqb (step_status step) "complete"
  then setLoading false st
  else st.

(** ** The session *)

(** How the upload of [handleSubmit] ends: [fetch] or [response.json()]
    throws (an [Error] with its message, or [None] for another value), the
    response is not ok, or the body [{ expenseId }] arrives with a string.  A
    body whose [expenseId] is not a string, on which [substring] throws after
    [setExpenseId], is not among the cases. *)
Inductive Upload :=
  | UploadThrew (thrown : option string)
  | UploadNotOk (statusText : string)
  | Uploaded (id : string).

(** The [catch] of [handleSubmit]. *)
Definition uploadFailed (now : string) (thrown : option string) (st : State) : State :=
  setLoading false
    (pushUpdate now "System" "error" ("❌ " +:+ default "Unknown error" thrown)
       (setError (Some (default "Upload failed" thrown)) st)).

(** The signals of a session: a frame of the stream ([None] when
    [JSON.parse] throws on it), an error of the stream, or the [i]-th
    pending timer firing. *)
Inductive Event {rt : JsRuntime} :=
  | Message (data : option jsval)
  | StreamError
  | TimerFires (i : nat) (jitter : nat).

Section Session.
Context {rt : JsRuntime}.

(** [handleSubmit]; [now1] and [now2] are the clock before and after the
    upload. *)
Definition handleSubmit (now1 now2 : string) (upload : Upload) (st : State) : State :=
  match file st with
  | None => st
  | Some _ =>
      let st :=
        pushUpdate now1 "System" "processing" "Uploading receipt to Cloud Storage..."
          (resetForUpload st) in
      match upload with
      | Uploaded id =>
          startRealTimeStream
            (pushUpdate now2 "Orchestrator" "complete"
               ("✅ Receipt uploaded! Expense ID: " +:+ substring id 0 8 +:+ "...")
               (setExpenseId (Some id) st))
      | UploadNotOk statusText =>
          uploadFailed now2 (Some ("Upload failed: " +:+ statusText)) st
      | UploadThrew thrown => uploadFailed now2 thrown st
      end
  end.

Definition runCallback (now : string) (jitter : nat) (cb : Callback) (st : State) : State :=
  match cb with
  | Watchdog => watchdog now st
  | SimulateAgentUpdates => simulateAgentUpdates jitter st
  | RunStep step => runStep now step st
  end.

(** One turn of the event loop.  An [EventSource] dispatches [message] and
    [error] events only while its [readyState] is not CLOSED: after
    [close()] the handlers are not called any more.  A timer that fires
    leaves the pending ones; the timers may fire in any order here, which
    includes the order of their delays. *)
Definition step (st : State) (signal : string * Event) : State :=
  let '(now, event) := signal in
  match event with
  | Message data =>
      match eventSource st, data with
      | Open, Some d => onmessage now d st
      | _, _ => st
      end
  | StreamError =>
      match eventSource st with
      | Open => onerror now st
      | _ => st
      end
  | TimerFires i jitter =>
      match timers st !! i with
      | Some t => runCallback now jitter (callback t) (setTimers (delete i (timers st)) st)
      | None => st
      end
  end.

Definition run (signals : list (string * Event)) (st : State) : State :=
  foldl step st signals.

End Session.

(** The [mode] of the specification, read off the two refs. *)
Inductive Mode := NoMode | Live | Demo.

Definition mode (st : State) : Mode :=
  if hasRealUpdatesRef st then Live
  else if demoModeRef st then Demo
  else NoMode.

(** A terminal entry of the log: a verdict of the Synthesis Agent or an
    error. *)
Definition terminal (u : AgentUpdate) : bool :=
  (String.eqb (agent u) "Synthesis Agent" && String.eqb (status u) "complete")
  || String.eqb (status u) "error".

Definition fallbackTimer (t : Timer) : bool :=
  match callback t with
  | Watchdog => false
  | _ => true
  end.

(** ** A runtime to evaluate the model

    Numbers are whole cents ([None] is NaN), numerals are decimal without
    sign or exponent and read to two decimals, and strings are ASCII.  It
    serves to run the model on the inputs of the examples, where it agrees
    with a browser. *)
Module Cents.

Fixpoint digitsValue (acc : N) (s : string) : N :=
  match s with
  | EmptyString => acc
  | String c rest => digitsValue (10 * acc + (code c - 48))%N rest
  end.

Definition twoDigits (n : N) : string :=
  (if (n <? 10)%N then "0" else EmptyString) +:+ pretty n.

Definition parse (s : string) : option Z :=
  let '(whole, rest) := span is_digit s in
  let fraction :=
    match rest with
    | String c r => if Ascii.eqb c "."%char then fst (span is_digit r) else EmptyString
    | EmptyString => EmptyString
    end in
  if String.eqb whole EmptyString && String.eqb fraction EmptyString then None
  else
    Some (Z.of_N (100 * digitsValue 0 whole
                  + digitsValue 0 (String.substring 0 2 (fraction +:+ "00")))).

Definition fixed2 (n : option Z) : string :=
  match n with
  | None => "NaN"
  | Some c =>
      (if (c <? 0)%Z then "-" else EmptyString)
      +:+ pretty (Z.abs_N c / 100)%N +:+ "." +:+ twoDigits (Z.abs_N c mod 100)%N
  end.

Definition shortest (n : option Z) : string :=
  match n with
  | None => "NaN"
  | Some c =>
      let cents := (Z.abs_N c mod 100)%N in
      (if (c <? 0)%Z then "-" else EmptyString)
      +:+ pretty (Z.abs_N c / 100)%N
      +:+ (if (cents =? 0)%N then EmptyString
           else if (cents mod 10 =? 0)%N then "." +:+ pretty (cents / 10)%N
           else "." +:+ twoDigits cents)
  end.

Definition lowerChar (c : ascii) : ascii :=
  if (65 <=? code c)%N && (code c <=? 90)%N then ascii_of_N (code c + 32) else c.

Fixpoint lower (s : string) : string :=
  match s with
  | EmptyString => EmptyString
  | String c rest => String (lowerChar c) (lower rest)
  end.

Definition runtime : JsRuntime := {|
  number := option Z;
  NaN := None;
  number_of_nat n := Some (100 * Z.of_nat n)%Z;
  number_gt a b := match a, b with Some x, Some y => (y <? x)%Z | _, _ => false end;
  number_lt a b := match a, b with Some x, Some y => (x <? y)%Z | _, _ => false end;
  number_truthy n := match n with Some c => negb (c =? 0)%Z | None => false end;
  number_toString := shortest;
  isFinite n := match n with Some _ => true | None => false end;
  toFixed n _ := fixed2 n;
  parseFloat := parse;
  toLowerCase := lower;
  substring s from to := String.substring from (to - from) s
|}.

End Cents.

(** ** Observations on a run *)

Definition isSimulation (t : Timer) : bool :=
  match callback t with
  | SimulateAgentUpdates => true
  | _ => false
  end.

(** The pending starts of the fallback generator. *)
Definition simulations (st : State) : nat := length (filter isSimulation (timers st)).

Section Observations.
Context {rt : JsRuntime}.

(** The signal makes [triggerDemoMode] arm the generator. *)
Definition startsFallback (st : State) (signal : string * Event) : bool :=
  (simulations st <? simulations (step st signal))%nat.

Fixpoint fallbackStarts (signals : list (string * Event)) (st : State) : nat :=
  match signals with
  | [] => 0
  | signal :: rest =>
      (if startsFallback st signal then 1 else 0) + fallbackStarts rest (step st signal)
  end.

(** The signal is the timer of the generator firing: [simulateAgentUpdates]
    runs. *)
Definition runsSimulation (st : State) (signal : string * Event) : bool :=
  match snd signal with
  | TimerFires i _ =>
      match timers st !! i with
      | Some t => isSimulation t
      | None => false
      end
  | _ => false
  end.

Fixpoint simulationRuns (signals : list (string * Event)) (st : State) : nat :=
  match signals with
  | [] => 0
  | signal :: rest =>
      (if runsSimulation st signal then 1 else 0) + simulationRuns rest (step st signal)
  end.

(** The signal is a frame that puts a notification of the live stream in
    the log. *)
Definition recordsLive (st : State) (signal : string * Event) : bool :=
  match snd signal with
  | Message _ =>
      (length (updates st) <? length (updates (step st signal)))%nat
      && negb (startsFallback st signal)
  | _ => false
  end.

(** The states in which the generator can no longer be armed. *)
Definition settled (st : State) : Prop :=
  hasRealUpdatesRef st = true ∨ demoModeRef st = true ∨ eventSource st = Closed.

(** A frame that carries the stage signal [code]: the status is [code] and
    no error is reported. *)
Definition stageFrame (code : string) (data : jsval) : Prop :=
  opt_get "status" data = VStr code ∧ truthy (opt_get "error" data) = false.

End Observations.

(** The stage codes whose notification is built from findings, with the
    key of the findings. *)
Definition findingsKey (code : string) : option string :=
  if String.eqb code "EXTRACTED" then Some "extraction"
  else if String.eqb code "POLICY_CHECKED" then Some "policy"
  else if String.eqb code "ANOMALY_CHECKED" then Some "anomaly"
  else if String.eqb code "REMEDIATION_COMPLETE" then Some "remediation"
  else None.

(** The stage of a step: its agent and status. *)
Definition stage (s : Step) : string * string := (step_agent s, step_status s).

(** The timeline as the specification lists it: nine steps. *)
Definition listedTimeline : list (string * string) :=
  [ ("Extraction Agent", "processing"); ("Extraction Agent", "complete");
    ("Policy Agent", "processing"); ("Policy Agent", "complete");
    ("Anomaly Agent", "processing"); ("Anomaly Agent", "complete");
    ("Remediation Agent", "processing"); ("Remediation Agent", "complete");
    ("Synthesis Agent", "complete") ].

(** The timeline of the [steps] array: ten steps with their delays. *)
Definition codedTimeline : list (string * string * N) :=
  [ ("Extraction Agent", "processing", 1000); ("Extraction Agent", "complete", 3500);
    ("Policy Agent", "processing", 4500); ("Policy Agent", "complete", 7000);
    ("Anomaly Agent", "processing", 7500); ("Anomaly Agent", "complete", 9000);
    ("Remediation Agent", "processing", 9500); ("Remediation Agent", "complete", 10500);
    ("Synthesis Agent", "processing", 11000); ("Synthesis Agent", "complete", 13000) ]%N.

(** What one callback of the stream or of the watchdog may do to the
    session: nothing, mark it live, close the stream, or start the fallback. *)
Inductive effect (st st' : State) : Prop :=
  | effect_none :
      st' = st → effect st st'
  | effect_live :
      hasRealUpdatesRef st' = true → demoModeRef st' = false →
      timers st' = timers st → file st' = file st →
      eventSource st' = eventSource st ∨ eventSource st' = Closed →
      effect st st'
  | effect_closed :
      eventSource st' = Closed →
      hasRealUpdatesRef st' = hasRealUpdatesRef st → demoModeRef st' = demoModeRef st →
      timers st' = timers st → file st' = file st →
      effect st st'
  | effect_demo :
      hasRealUpdatesRef st = false → demoModeRef st = false →
      hasRealUpdatesRef st' = false → demoModeRef st' = true →
      eventSource st' = Closed →
      timers st' = timers st ++ [mkTimer 500 SimulateAgentUpdates] →
      file st' = file st →
      effect st st'.

(** The invariant of a session: in demo mode the stream is closed and no
    live update was seen; out of it no timer of the fallback is pending. *)
Definition exclusive (st : State) : Prop :=
  (demoModeRef st = true → eventSource st = Closed ∧ hasRealUpdatesRef st = false) ∧
  (demoModeRef st = false → Forall (λ t, fallbackTimer t = false) (timers st)).

(** The keys of the verdicts of the Synthesis Agent. *)
Definition verdictKey (k : string) : bool :=
  startsWith "Synthesis Agent|complete|" k.

Definition noVerdict (st : State) : Prop :=
  ∀ k, k ∈ emittedUpdatesRef st → verdictKey k = false.

(** The timers [simulateAgentUpdates] arms. *)
Definition stepTimers (ss : list Step) : list Timer :=
  (λ s, mkTimer (delay s) (RunStep s)) <$> ss.


(** ** The writes of a callback and the rendered page *)

(** What a callback of a session does to the state is a chain of these
    writes. *)
Inductive writes (st : State) : State → Prop :=
  | writes_none : writes st st
  | writes_push now a s m st' :
      writes st st' → writes st (pushUpdate now a s m st')
  | writes_loading st' : writes st st' → writes st (setLoading false st')
  | writes_demo value st' : writes st st' → writes st (setDemoModeFlag value st')
  | writes_real st' : writes st st' → writes st (setHasRealUpdates true st')
  | writes_closed st' : writes st st' → writes st (setReadyState Closed st')
  | writes_timers ts st' : writes st st' → writes st (setTimers ts st').

(** The key of a logged notification. *)
Definition keyOf (u : AgentUpdate) : string :=
  update_key (agent u) (status u) (message u).

(** [expenseId] as a condition of the page: set, and not the empty string. *)
Definition hasExpenseId (st : State) : bool :=
  match expenseId st with
  | Some i => negb (String.eqb i EmptyString)
  | None => false
  end.

(** [disabled={!file || loading}] of the submit button. *)
Definition submitDisabled (st : State) : bool :=
  match file st with
  | Some _ => loading st
  | None => true
  end.

(** [!expenseId && !loading]: the panel that reads Ready for Analysis. *)
Definition showsReady (st : State) : bool :=
  negb (hasExpenseId st) && negb (loading st).

(** [(loading || expenseId)]: the panel of the agent activity, which holds
    the log. *)
Definition showsActivity (st : State) : bool :=
  loading st || hasExpenseId st.

(** [!loading && expenseId && updates.length > 0]: the banner that reads
    Audit Complete, inside the panel of the activity. *)
Definition showsComplete (st : State) : bool :=
  negb (loading st) && hasExpenseId st && (0 <? length (updates st)).




(** The status codes that [onmessage] acts on. *)
Definition handledStatus : list string :=
  [ "TIMEOUT"; "DONE"; "INGESTED"; "EXTRACTED"; "EXTRACTION_FAILED";
    "POLICY_CHECKED"; "POLICY_CHECK_FAILED"; "ANOMALY_CHECKED";
    "ANOMALY_CHECK_FAILED"; "REMEDIATION_COMPLETE";
    "APPROVED"; "REJECTED"; "NEEDS_REVIEW"; "FAILED" ].

(** The occurrences of a character. *)
Fixpoint occurrences (c : ascii) (s : string) : nat :=
  match s with
  | EmptyString => 0
  | String c' rest => (if Ascii.eqb c' c then 1 else 0) + occurrences c rest
  end.

(** The characters of a string. *)
Fixpoint chars (s : string) : list ascii :=
  match s with
  | EmptyString => []
  | String c rest => c :: chars rest
  end.

(** The fallback is running while the timers [pre], of the watchdog, are
    still pending before its own. *)
Definition fallbackRunning (pre ts : list Timer) (st : State) : Prop :=
  timers st = pre ++ ts ∧ noVerdict st ∧
  demoModeRef st = true ∧ hasRealUpdatesRef st = false.

(** The log and the emitted set match: the notifications of the log are
    pairwise distinct, and the emitted keys are the keys of the log. *)
Definition logMatches (st : State) : Prop :=
  NoDup (triple <$> updates st) ∧
  ∀ k, k ∈ emittedUpdatesRef st ↔ ∃ u, u ∈ updates st ∧ keyOf u = k.

(** A session never completes with its stream open. *)
Definition completedClosed (st : State) : Prop :=
  loading st = false → eventSource st = Closed.

(** The dedup key of a step of the timeline, and the notification that
    its timer logs at the time [now]. *)
Definition stepKey (s : Step) : string :=
  update_key (step_agent s) (step_status s) (step_message s).

Definition stepUpdate (s : Step) (now : string) : AgentUpdate :=
  mkUpdate (step_agent s) (step_status s) (step_message s) now.

(** The step that is the verdict: the test of the callback of a step. *)
Definition isVerdict (s : Step) : bool :=
  String.eqb (step_agent s) "Synthesis Agent" && String.eqb (step_status s) "complete".

(** ** Inputs of the examples *)
Module Examples.

#[local] Existing Instance Cents.runtime.

Definition textFile (name content : string) : option File :=
  Some (mkFile name "text/plain" (Some content)).

Definition imageFile (name : string) : option File :=
  Some (mkFile name "image/jpeg" None).

(** The page before the first submission, with a file selected. *)
Definition page (file : option File) : State :=
  mkState file false None [] None false false ∅ NotOpened [].

(** A session whose upload succeeded. *)
Definition streaming (file : option File) : State :=
  handleSubmit "09:00:00" "09:00:01" (Uploaded "0123456789abcdef") (page file).

Definition frame (status : string) : jsval := VObj [("status", VStr status)].

Definition failedFrame (status : string) : jsval :=
  VObj [("status", VStr status); ("error", VStr "boom")].

End Examples.

(** ** Facts about the update log *)

Lemma pushUpdate_dup now a s m st :
  update_key a s m ∈ emittedUpdatesRef st → pushUpdate now a s m st = st.
Proof.
  intros Hin. unfold pushUpdate. by rewrite bool_decide_eq_true_2.
Qed.

Lemma pushUpdate_fresh now a s m st :
  update_key a s m ∉ emittedUpdatesRef st →
  updates (pushUpdate now a s m st) = updates st ++ [mkUpdate a s m now] ∧
  emittedUpdatesRef (pushUpdate now a s m st)
    = {[update_key a s m]} ∪ emittedUpdatesRef st.
Proof.
  intros Hnin. unfold pushUpdate. by rewrite bool_decide_eq_false_2.
Qed.

Lemma pushUpdate_synced now a s m st :
  log_synced st → log_synced (pushUpdate now a s m st).
Proof.
  intros Hs. destruct (decide (update_key a s m ∈ emittedUpdatesRef st)) as [Hin|Hnin].
  - by rewrite pushUpdate_dup.
  - destruct (pushUpdate_fresh now a s m st Hnin) as [Hu He].
    intros u. rewrite Hu, He. intros [Hold | Hnew]%elem_of_app.
    + apply elem_of_union_r. by apply Hs.
    + apply list_elem_of_singleton in Hnew. subst u. simpl.
      apply elem_of_union_l. by apply elem_of_singleton.
Qed.

Lemma pushUpdate_nodup now a s m st :
  log_synced st → NoDup (triple <$> updates st) →
  NoDup (triple <$> updates (pushUpdate now a s m st)).
Proof.
  intros Hs Hnd. destruct (decide (update_key a s m ∈ emittedUpdatesRef st)) as [Hin|Hnin].
  - by rewrite pushUpdate_dup.
  - destruct (pushUpdate_fresh now a s m st Hnin) as [Hu _].
    rewrite Hu, fmap_app. apply NoDup_app. split; [done|]. split.
    + intros t Ht Hnew. simpl in Hnew. apply list_elem_of_singleton in Hnew.
      apply list_elem_of_fmap in Ht as (u & -> & Hu').
      apply Hnin. specialize (Hs u Hu'). unfold triple in Hnew.
      by injection Hnew as <- <- <-.
    + simpl. apply NoDup_singleton.
Qed.

Lemma appendAll_invariant ops st :
  log_synced st → NoDup (triple <$> updates st) →
  log_synced (appendAll ops st) ∧ NoDup (triple <$> updates (appendAll ops st)).
Proof.
  revert st. induction ops as [|op ops IH]; intros st Hs Hnd; [done|].
  simpl. apply IH.
  - by apply pushUpdate_synced.
  - by apply pushUpdate_nodup.
Qed.

Lemma resetForUpload_synced st : log_synced (resetForUpload st).
Proof. intros u Hu. simpl in Hu. by apply elem_of_nil in Hu. Qed.

(** C4. In a session (the log and the emitted set were reset by
    [handleSubmit]), after any sequence of [pushUpdate] calls the log holds
    every (agent, status, message) triple at most once, and pushing a triple
    that is already logged leaves the whole state unchanged, whatever the
    timestamp. *)
Theorem C4_dedup_idempotent (prev : State) (ops : list Append) :
  let st := appendAll ops (resetForUpload prev) in
  NoDup (triple <$> updates st) ∧
  ∀ now a s m, (a, s, m) ∈ (triple <$> updates st) →
    pushUpdate now a s m st = st.
Proof.
  intros st.
  destruct (appendAll_invariant ops (resetForUpload prev)) as [Hs Hnd].
  - apply resetForUpload_synced.
  - simpl. apply NoDup_nil_2.
  - split; [exact Hnd|].
    intros now a s m Hin. apply pushUpdate_dup.
    apply list_elem_of_fmap in Hin as (u & Ht & Hu).
    specialize (Hs u Hu). unfold triple in Ht. by injection Ht as -> -> ->.
Qed.

(** ** Facts about the state setters and [pushUpdate] *)

Lemma pushUpdate_frame now a s m st :
  file (pushUpdate now a s m st) = file st ∧
  loading (pushUpdate now a s m st) = loading st ∧
  expenseId (pushUpdate now a s m st) = expenseId st ∧
  error (pushUpdate now a s m st) = error st ∧
  demoModeRef (pushUpdate now a s m st) = demoModeRef st ∧
  hasRealUpdatesRef (pushUpdate now a s m st) = hasRealUpdatesRef st ∧
  eventSource (pushUpdate now a s m st) = eventSource st ∧
  timers (pushUpdate now a s m st) = timers st.
Proof. unfold pushUpdate. by case_bool_decide. Qed.

Lemma pushUpdate_file now a s m st : file (pushUpdate now a s m st) = file st.
Proof. apply pushUpdate_frame. Qed.
Lemma pushUpdate_loading now a s m st : loading (pushUpdate now a s m st) = loading st.
Proof. apply pushUpdate_frame. Qed.
Lemma pushUpdate_expenseId now a s m st : expenseId (pushUpdate now a s m st) = expenseId st.
Proof. apply pushUpdate_frame. Qed.
Lemma pushUpdate_error now a s m st : error (pushUpdate now a s m st) = error st.
Proof. apply pushUpdate_frame. Qed.
Lemma pushUpdate_demoModeRef now a s m st :
  demoModeRef (pushUpdate now a s m st) = demoModeRef st.
Proof. apply pushUpdate_frame. Qed.
Lemma pushUpdate_hasRealUpdatesRef now a s m st :
  hasRealUpdatesRef (pushUpdate now a s m st) = hasRealUpdatesRef st.
Proof. apply pushUpdate_frame. Qed.
Lemma pushUpdate_eventSource now a s m st :
  eventSource (pushUpdate now a s m st) = eventSource st.
Proof. apply pushUpdate_frame. Qed.
Lemma pushUpdate_timers now a s m st : timers (pushUpdate now a s m st) = timers st.
Proof. apply pushUpdate_frame. Qed.

Create Rewrite HintDb push.
#[export] Hint Rewrite pushUpdate_file pushUpdate_loading pushUpdate_expenseId
  pushUpdate_error pushUpdate_demoModeRef pushUpdate_hasRealUpdatesRef
  pushUpdate_eventSource pushUpdate_timers : push.

(** The log only grows: a push keeps what is logged. *)
Lemma pushUpdate_prefix now a s m st :
  updates st `prefix_of` updates (pushUpdate now a s m st).
Proof.
  unfold pushUpdate. case_bool_decide; simpl; [done|]. by apply prefix_app_r.
Qed.

(** Two keys with different agents or statuses, as far as a literal prefix
    shows. *)
Lemma key_not_in_singleton (k k' : string) (s : gset string) :
  k ≠ k' → k ∉ s → k ∉ ({[k']} ∪ s : gset string).
Proof.
  intros Hne Hs [Hk | Hk]%elem_of_union; [|done].
  by apply elem_of_singleton in Hk.
Qed.

(** ** The upload *)

Lemma uploadFailed_spec now1 now2 thrown prev :
  let st :=
    uploadFailed now2 thrown
      (pushUpdate now1 "System" "processing" "Uploading receipt to Cloud Storage..."
         (resetForUpload prev)) in
  updates st =
    [ mkUpdate "System" "processing" "Uploading receipt to Cloud Storage..." now1;
      mkUpdate "System" "error" ("❌ " +:+ default "Unknown error" thrown) now2 ] ∧
  loading st = false ∧
  error st = Some (default "Upload failed" thrown) ∧
  expenseId st = None ∧
  eventSource st = eventSource prev ∧
  timers st = timers prev.
Proof.
  intros st. subst st. unfold uploadFailed.
  set (st1 := pushUpdate now1 _ _ _ _).
  assert (Hu1 : updates st1 = [mkUpdate "System" "processing"
                   "Uploading receipt to Cloud Storage..." now1]
                ∧ emittedUpdatesRef st1 = {[update_key "System" "processing"
                   "Uploading receipt to Cloud Storage..."]} ∪ ∅).
  { subst st1. apply (pushUpdate_fresh now1 _ _ _ (resetForUpload prev)).
    simpl. set_solver. }
  destruct Hu1 as [Hu1 He1].
  set (st2 := setError _ st1).
  destruct (pushUpdate_fresh now2 "System" "error"
              ("❌ " +:+ default "Unknown error" thrown) st2) as [Hu2 _].
  { subst st2. simpl. rewrite He1. apply key_not_in_singleton; [|set_solver].
    unfold update_key. simpl. discriminate. }
  simpl. rewrite Hu2. subst st2. simpl. rewrite Hu1.
  autorewrite with push. simpl. subst st1. autorewrite with push. simpl.
  done.
Qed.

(** C9. When the upload answers with a status that is not ok, or [fetch]
    throws, the session ends failed: [loading] is off and [error] is set, the
    log holds the uploading notice and exactly one notification of status
    error, and [handleSubmit] opens no stream and arms no timer. *)
Theorem C9_upload_failure {rt : JsRuntime} (prev : State) (f : File)
    (now1 now2 : string) (upload : Upload) :
  file prev = Some f →
  (∀ id, upload ≠ Uploaded id) →
  let st := handleSubmit now1 now2 upload prev in
  loading st = false ∧
  is_Some (error st) ∧
  expenseId st = None ∧
  (∃ m, updates st =
     [ mkUpdate "System" "processing" "Uploading receipt to Cloud Storage..." now1;
       mkUpdate "System" "error" ("❌ " +:+ m) now2 ]) ∧
  length (filter (λ u, status u = "error") (updates st)) = 1 ∧
  eventSource st = eventSource prev ∧
  timers st = timers prev.
Proof.
  intros Hfile Hfail st. subst st. unfold handleSubmit. rewrite Hfile.
  assert (Hcase : ∃ thrown,
    match upload with
    | Uploaded id =>
        startRealTimeStream
          (pushUpdate now2 "Orchestrator" "complete"
             ("✅ Receipt uploaded! Expense ID: " +:+ substring id 0 8 +:+ "...")
             (setExpenseId (Some id)
                (pushUpdate now1 "System" "processing"
                   "Uploading receipt to Cloud Storage..." (resetForUpload prev))))
    | UploadNotOk statusText =>
        uploadFailed now2 (Some ("Upload failed: " +:+ statusText))
          (pushUpdate now1 "System" "processing"
             "Uploading receipt to Cloud Storage..." (resetForUpload prev))
    | UploadThrew thrown =>
        uploadFailed now2 thrown
          (pushUpdate now1 "System" "processing"
             "Uploading receipt to Cloud Storage..." (resetForUpload prev))
    end = uploadFailed now2 thrown
            (pushUpdate now1 "System" "processing"
               "Uploading receipt to Cloud Storage..." (resetForUpload prev))).
  { destruct upload as [thrown|statusText|id]; [by eexists..|].
    by destruct (Hfail id). }
  destruct Hcase as [thrown ->].
  destruct (uploadFailed_spec now1 now2 thrown prev)
    as (Hu & Hl & He & Hi & Hs & Ht).
  rewrite Hu, Hl, He, Hi, Hs, Ht.
  repeat split; eauto.
Qed.

(** ** Stage frames *)

Section StageFrames.
Context {rt : JsRuntime}.

Lemma stageFrame_get code data :
  stageFrame code data → get "status" data = Some (VStr code).
Proof.
  intros [Hs _]. unfold get, opt_get in *.
  destruct (nullish data); [discriminate|]. by rewrite Hs.
Qed.

(** What [onmessage] does on a stage frame, before the [switch]. *)
Ltac stage_frame H :=
  unfold onmessage;
  rewrite (stageFrame_get _ _ H);
  destruct H as [-> ->]; simpl.





(** C10, amended. A stage frame (no error reported) whose status is
    EXTRACTED, POLICY_CHECKED, ANOMALY_CHECKED or REMEDIATION_COMPLETE and
    whose payload has no findings under the stage's key is ignored: the state
    is left as it was, so nothing is logged and the session is not marked
    live. *)
Theorem C10_stage_without_findings_ignored (now code key : string) (data : jsval)
    (st : State) :
  findingsKey code = Some key →
  stageFrame code data →
  truthy (prop key (findingsOf data)) = false →
  onmessage now data st = st.
Proof.
  intros Hkey H Hnone. unfold findingsKey in Hkey.
  repeat match type of Hkey with
  | (if String.eqb ?c ?l then _ else _) = _ =>
      destruct (String.eqb_spec c l) as [->|_]
  end; try discriminate; injection Hkey as <-;
  stage_frame H; unfold stageWithFindings; by rewrite Hnone.
Qed.

End StageFrames.

(** ** The fallback generator *)

Lemma totalMatch_unfold content :
  totalMatch content =
    match totalAt content with
    | Some group => Some group
    | None =>
        match content with
        | EmptyString => None
        | String _ rest => totalMatch rest
        end
    end.
Proof. by destruct content. Qed.

(** The match is the leftmost one: positions without a match are skipped. *)
Lemma totalMatch_leftmost before rest :
  matchesWithin before rest = false →
  totalMatch (before +:+ rest) = totalMatch rest.
Proof.
  induction before as [|c before IH]; [done|].
  simpl matchesWithin. intros [Hhere Hlater]%orb_false_elim.
  apply bool_decide_eq_false in Hhere.
  rewrite totalMatch_unfold.
  destruct (totalAt (String c before +:+ rest)) as [group|] eqn:Hat.
  - destruct Hhere. by eexists.
  - simpl. by apply IH.
Qed.

Lemma totalMatch_here content group :
  totalAt content = Some group → totalMatch content = Some group.
Proof. intros H. by rewrite totalMatch_unfold, H. Qed.

Lemma span_no_digit post :
  startsWithDigit post = false → span is_digit post = (EmptyString, post).
Proof. destruct post as [|c post]; simpl; [done|]. by intros ->. Qed.

Lemma totalAt_42_10 post :
  startsWithDigit post = false →
  totalAt ("Total: $42.10" +:+ post) = Some "42.10".
Proof.
  intros H. unfold totalAt. simpl.
  change (EmptyString +:+ post) with post.
  by rewrite (span_no_digit _ H).
Qed.

Section FallbackFacts.
Context {rt : JsRuntime}.

Lemma fileContent_image file : isImage file = true → fileContent file = EmptyString.
Proof. intros H. unfold fileContent. rewrite H. by destruct file. Qed.

Lemma fileContent_text f content :
  isImage (Some f) = false → text f = Some content → fileContent (Some f) = content.
Proof. intros Hi Ht. unfold fileContent. by rewrite Hi, Ht. Qed.

Lemma amount_leftmost file before rest group :
  fileContent file = before +:+ rest →
  matchesWithin before rest = false →
  totalAt rest = Some group →
  amount file = dropFirstComma group.
Proof.
  intros Hc Hbefore Hat. unfold amount.
  by rewrite Hc, (totalMatch_leftmost _ _ Hbefore), (totalMatch_here _ _ Hat).
Qed.

(** C7, amended. The amount is the group of the leftmost match of the
    Total pattern in the text content, less its first comma.  Without a match
    an image gets the default of its category, 45.00 when it has none; a file
    that is not an image gets 0.00. *)
Theorem C7_amount (file : option File) :
  (∀ before rest group,
     fileContent file = before +:+ rest →
     matchesWithin before rest = false →
     totalAt rest = Some group →
     amount file = dropFirstComma group) ∧
  (isImage file = true →
     amount file =
       if isStarbucks file then "25.55"
       else if isUber file then "39.53"
       else if isBar file then "93.74"
       else if isStaples file then "102.84"
       else "45.00") ∧
  (isImage file = false → totalMatch (fileContent file) = None → amount file = "0.00").
Proof.
  split; [|split].
  - intros before rest group. apply amount_leftmost.
  - intros Hi. unfold amount. by rewrite (fileContent_image _ Hi), Hi.
  - intros Hi Hm. unfold amount. by rewrite Hm, Hi.
Qed.

(** C8, amended. On a file that is not an image and is classified neither
    as Starbucks nor as Uber, whose text holds [Total: $42.10] with no digit
    after it and no match of the Total pattern before it, and holds the word
    WINE, the timeline uses the amount 42.10 and the merchant Bar/Restaurant;
    its last notification is the rejected verdict of the Synthesis Agent,
    which names a policy violation, and the alcohol violation is cited by
    the notification of the Policy Agent. *)
Theorem C8_wine_receipt (f : File) (before after : string) (jitter : nat) :
  text f = Some (before +:+ "Total: $42.10" +:+ after) →
  isImage (Some f) = false →
  matchesWithin before ("Total: $42.10" +:+ after) = false →
  startsWithDigit after = false →
  includes "WINE" (before +:+ "Total: $42.10" +:+ after) = true →
  isStarbucks (Some f) = false →
  isUber (Some f) = false →
  amount (Some f) = "42.10" ∧
  merchant (verdict (Some f)) = "Bar/Restaurant" ∧
  policyResult (verdict (Some f)) = "rejected" ∧
  last (steps (Some f) jitter) =
    Some (mkStep "Synthesis Agent" "complete"
            "❌ **REJECTED** - Policy violation detected. Amount: $42.10. Requires remediation."
            13000) ∧
  (∃ s, s ∈ steps (Some f) jitter ∧ stage s = ("Policy Agent", "complete") ∧
        includes "Alcoholic beverages detected" (step_message s) = true).
Proof.
  intros Htext Himage Hbefore Hafter Hwine Hstarbucks Huber.
  pose proof (fileContent_text _ _ Himage Htext) as Hcontent.
  assert (Hamount : amount (Some f) = "42.10").
  { by rewrite (amount_leftmost _ _ _ "42.10" Hcontent Hbefore (totalAt_42_10 _ Hafter)). }
  assert (Hbar : isBar (Some f) = true).
  { unfold isBar. rewrite Hcontent, Hwine. by rewrite !orb_true_r. }
  assert (Hverdict : verdict (Some f) =
    mkVerdict "Bar/Restaurant" "Meals" "rejected"
      ("❌ **POLICY VIOLATION** - Alcoholic beverages detected. Per Policy §6.1: "
       +:+ dquote +:+ "Alcohol NOT reimbursable under any circumstances" +:+ dquote)).
  { unfold verdict. by rewrite Hstarbucks, Huber, Hbar. }
  split; [exact Hamount|]. rewrite Hverdict. split; [done|]. split; [done|].
  unfold steps. rewrite Hverdict, Hamount. split; [reflexivity|].
  eexists. split; [do 3 apply list_elem_of_further; apply list_elem_of_here|].
  split; reflexivity.
Qed.

End FallbackFacts.

(** ** The callbacks of the stream and their effect *)

Lemma triggerDemoMode_idle now message st :
  hasRealUpdatesRef st || demoModeRef st = true → triggerDemoMode now message st = st.
Proof. intros H. unfold triggerDemoMode. by rewrite H. Qed.

Lemma triggerDemoMode_fires now message st :
  hasRealUpdatesRef st = false → demoModeRef st = false →
  let st' := triggerDemoMode now message st in
  hasRealUpdatesRef st' = false ∧ demoModeRef st' = true ∧
  eventSource st' = eventSource st ∧
  timers st' = timers st ++ [mkTimer 500 SimulateAgentUpdates] ∧
  file st' = file st ∧ loading st' = loading st.
Proof.
  intros Hr Hd. unfold triggerDemoMode. rewrite Hr, Hd. simpl.
  autorewrite with push. simpl. by rewrite Hr.
Qed.

(** [triggerDemoMode] followed or preceded by [close]. *)
Lemma trigger_close_effect now message st :
  effect st (close (triggerDemoMode now message st)).
Proof.
  destruct (hasRealUpdatesRef st || demoModeRef st) eqn:H.
  - rewrite (triggerDemoMode_idle _ _ _ H). by apply effect_closed.
  - apply orb_false_elim in H as [Hr Hd].
    destruct (triggerDemoMode_fires now message st Hr Hd) as (? & ? & ? & ? & ? & ?).
    by apply effect_demo.
Qed.

Lemma close_trigger_effect now message st :
  effect st (triggerDemoMode now message (close st)).
Proof.
  destruct (hasRealUpdatesRef st || demoModeRef st) eqn:H.
  - rewrite (triggerDemoMode_idle _ _ (close st)) by done. by apply effect_closed.
  - apply orb_false_elim in H as [Hr Hd].
    destruct (triggerDemoMode_fires now message (close st) Hr Hd) as (? & ? & ? & ? & ? & ?).
    by apply effect_demo.
Qed.

Ltac live_effect :=
  apply effect_live; simpl; autorewrite with push; simpl; auto.

Section StreamEffects.
Context {rt : JsRuntime}.

Lemma handleFinalStatus_effect now finalStatus doc st :
  effect st (handleFinalStatus now finalStatus doc st).
Proof.
  unfold handleFinalStatus.
  match goal with |- effect _ (match ?shown with _ => _ end) => destruct shown end;
    live_effect.
Qed.

Lemma stageWithFindings_effect now agent found render st :
  effect st (stageWithFindings now agent found render st).
Proof.
  unfold stageWithFindings. destruct (truthy found); [|by apply effect_none].
  destruct (render found); live_effect.
Qed.

Lemma onmessage_effect now data st : effect st (onmessage now data st).
Proof.
  unfold onmessage.
  destruct (is_string "TIMEOUT" (opt_get "status" data)).
  { destruct (hasRealUpdatesRef st) eqn:Hr; simpl.
    - by apply effect_closed.
    - apply trigger_close_effect. }
  destruct (truthy (opt_get "error" data)).
  { destruct (ToString (opt_get "error" data)); [|by apply effect_none].
    apply effect_closed; simpl; by autorewrite with push. }
  destruct (get "status" data) as [s|]; [|by apply effect_none].
  repeat match goal with
  | |- effect _ (if ?b then _ else _) => destruct b
  end;
  first [ apply handleFinalStatus_effect
        | apply stageWithFindings_effect
        | by apply effect_none
        | live_effect ].
Qed.

Lemma onerror_effect now st : effect st (onerror now st).
Proof.
  unfold onerror. destruct (hasRealUpdatesRef st) eqn:Hr.
  - by apply effect_closed.
  - apply close_trigger_effect.
Qed.

End StreamEffects.

Lemma watchdog_effect now st : effect st (watchdog now st).
Proof.
  unfold watchdog.
  destruct (eventSource st) eqn:He; [| |by apply effect_none];
    (destruct (hasRealUpdatesRef st) eqn:Hr; simpl;
     [by apply effect_closed|apply trigger_close_effect]).
Qed.

(** ** One turn of the event loop *)

Lemma simulations_delete i (ts : list Timer) :
  length (filter isSimulation (delete i ts)) ≤ length (filter isSimulation ts).
Proof.
  revert i. induction ts as [|t ts IH]; intros [|i]; simpl; try lia.
  - rewrite filter_cons. destruct (decide _); simpl; lia.
  - rewrite !filter_cons. specialize (IH i). destruct (decide _); simpl; lia.
Qed.

Lemma simulations_stepTimers (ts : list Timer) ss :
  length (filter isSimulation (ts ++ stepTimers ss)) = length (filter isSimulation ts).
Proof.
  rewrite filter_app, length_app.
  assert (filter isSimulation (stepTimers ss) = []) as ->; [|simpl; lia].
  induction ss as [|s ss IH]; [done|]. simpl.
  rewrite filter_cons_False; [exact IH|]. simpl. tauto.
Qed.

Lemma watchdog_closed now st : eventSource (watchdog now st) = Closed.
Proof. unfold watchdog. by destruct (eventSource st) eqn:He. Qed.

Lemma runStep_frame now s st :
  file (runStep now s st) = file st ∧
  demoModeRef (runStep now s st) = demoModeRef st ∧
  hasRealUpdatesRef (runStep now s st) = hasRealUpdatesRef st ∧
  eventSource (runStep now s st) = eventSource st ∧
  timers (runStep now s st) = timers st.
Proof.
  unfold runStep. destruct (_ && _); simpl; by autorewrite with push.
Qed.

Section Turns.
Context {rt : JsRuntime}.

Lemma simulateAgentUpdates_timers jitter st :
  timers (simulateAgentUpdates jitter st) = timers st ++ stepTimers (steps (file st) jitter).
Proof.
  unfold simulateAgentUpdates, steps, stepTimers, setTimeout. simpl.
  by rewrite <- !app_assoc.
Qed.

Lemma simulateAgentUpdates_frame jitter st :
  file (simulateAgentUpdates jitter st) = file st ∧
  loading (simulateAgentUpdates jitter st) = loading st ∧
  updates (simulateAgentUpdates jitter st) = updates st ∧
  emittedUpdatesRef (simulateAgentUpdates jitter st) = emittedUpdatesRef st ∧
  demoModeRef (simulateAgentUpdates jitter st) = demoModeRef st ∧
  hasRealUpdatesRef (simulateAgentUpdates jitter st) = hasRealUpdatesRef st ∧
  eventSource (simulateAgentUpdates jitter st) = eventSource st.
Proof. unfold simulateAgentUpdates, steps. by simpl. Qed.

(** The three ways a turn can go. *)
Lemma step_cases st signal :
  step st signal = st ∨
  effect st (step st signal) ∨
  ∃ now i jitter t,
    signal = (now, TimerFires i jitter) ∧ timers st !! i = Some t ∧
    step st signal = runCallback now jitter (callback t) (setTimers (delete i (timers st)) st).
Proof.
  destruct signal as [now [data| |i jitter]]; simpl.
  - destruct (eventSource st), data; auto. right; left. apply onmessage_effect.
  - destruct (eventSource st); auto. right; left. apply onerror_effect.
  - destruct (timers st !! i) as [t|] eqn:Ht; auto.
    right; right. by exists now, i, jitter, t.
Qed.

Lemma effect_settled st st' : settled st → effect st st' → settled st'.
Proof.
  unfold settled. intros Hs [->|Hr _ _ _ _|Hc _ _ _ _|_ _ _ Hd _ _ _]; auto.
Qed.

Lemma effect_simulations st st' :
  effect st st' →
  simulations st' ≤ simulations st ∨
  (hasRealUpdatesRef st = false ∧ demoModeRef st = false ∧ demoModeRef st' = true).
Proof.
  unfold simulations.
  intros [->|_ _ -> _ _|_ _ _ -> _|Hr Hd _ Hd' _ _ _]; auto.
Qed.

(** A turn either arms no new start of the generator, or the session was
    in no mode with its stream not closed and is in demo mode afterwards. *)
Lemma step_simulations st signal :
  simulations (step st signal) ≤ simulations st ∨
  (hasRealUpdatesRef st = false ∧ demoModeRef st = false ∧ eventSource st ≠ Closed ∧
   demoModeRef (step st signal) = true).
Proof.
  destruct signal as [now [data| |i jitter]]; simpl.
  - destruct (eventSource st) eqn:Hopen, data as [d|]; auto.
    destruct (effect_simulations _ _ (onmessage_effect now d st)) as [?|(? & ? & ?)]; auto.
  - destruct (eventSource st) eqn:Hopen; auto.
    destruct (effect_simulations _ _ (onerror_effect now st)) as [?|(? & ? & ?)]; auto.
  - destruct (timers st !! i) as [t|] eqn:Ht; [|auto].
    pose proof (simulations_delete i (timers st)) as Hdel.
    set (st1 := setTimers (delete i (timers st)) st) in *.
    assert (Hst1 : simulations st1 ≤ simulations st) by exact Hdel.
    destruct (callback t); simpl.
    + destruct (effect_simulations _ _ (watchdog_effect now st1)) as [?|(Hr & Hd & Hd')].
      * left. lia.
      * destruct (eventSource st) eqn:Hopen; [right; by repeat split..|].
        unfold watchdog in Hd'. subst st1. simpl in Hd'. rewrite Hopen in Hd'.
        simpl in *. congruence.
    + left. unfold simulations at 1. rewrite simulateAgentUpdates_timers.
      rewrite simulations_stepTimers. exact Hst1.
    + left. unfold simulations at 1.
      destruct (runStep_frame now s st1) as (_ & _ & _ & _ & ->). exact Hst1.
Qed.

Lemma step_settled st signal : settled st → settled (step st signal).
Proof.
  intros Hs.
  destruct (step_cases st signal) as [->|[He|(now & i & jitter & t & -> & Ht & ->)]];
    [done|by eapply effect_settled|].
  set (st1 := setTimers (delete i (timers st)) st).
  assert (Hs1 : settled st1) by exact Hs.
  destruct (callback t); simpl.
  - eapply effect_settled; [exact Hs1|apply watchdog_effect].
  - destruct (simulateAgentUpdates_frame jitter st1) as (_ & _ & _ & _ & Hd & Hr & He).
    unfold settled. by rewrite Hd, Hr, He.
  - destruct (runStep_frame now s st1) as (_ & Hd & Hr & He & _).
    unfold settled. by rewrite Hd, Hr, He.
Qed.

Lemma settled_no_start st signal : settled st → startsFallback st signal = false.
Proof.
  intros Hs. unfold startsFallback. apply Nat.ltb_ge.
  destruct (step_simulations st signal) as [?|(Hr & Hd & Hc & _)]; [done|].
  destruct Hs as [?|[?|?]]; congruence.
Qed.

Lemma start_settles st signal :
  startsFallback st signal = true → settled (step st signal).
Proof.
  unfold startsFallback. intros Hlt%Nat.ltb_lt.
  destruct (step_simulations st signal) as [?|(_ & _ & _ & Hd)]; [lia|].
  right. by left.
Qed.

Lemma settled_no_starts signals st : settled st → fallbackStarts signals st = 0.
Proof.
  revert st. induction signals as [|signal rest IH]; intros st Hs; [done|].
  simpl. rewrite (settled_no_start _ _ Hs). simpl. apply IH. by apply step_settled.
Qed.

Lemma recordsLive_settles st signal :
  recordsLive st signal = true → settled (step st signal).
Proof.
  unfold recordsLive. destruct signal as [now [data| |i jitter]]; simpl; [|done..].
  intros [Hgrow _]%andb_true_iff. apply Nat.ltb_lt in Hgrow.
  destruct (eventSource st), data as [d|]; try lia.
  destruct (onmessage_effect now d st) as [Heq|Hr _ _ _ _|Hc _ _ _ _|_ _ _ Hd _ _ _].
  - rewrite Heq in Hgrow. lia.
  - by left.
  - right. by right.
  - right. by left.
Qed.

Lemma simulations_delete_simulation i (ts : list Timer) t :
  ts !! i = Some t → isSimulation t = true →
  length (filter isSimulation (delete i ts)) + 1 = length (filter isSimulation ts).
Proof.
  revert i. induction ts as [|t' ts IH]; intros [|i] Ht Hsim; simpl in *; try done.
  - injection Ht as ->. rewrite filter_cons_True by by rewrite Hsim. simpl. lia.
  - rewrite !filter_cons. specialize (IH i Ht Hsim).
    destruct (decide _); simpl; lia.
Qed.

Lemma effect_simulations_bound st st' :
  effect st st' → simulations st' ≤ simulations st + 1.
Proof.
  unfold simulations. intros [->|_ _ -> _ _|_ _ _ -> _|_ _ _ _ _ -> _]; try lia.
  rewrite filter_app, length_app. simpl. lia.
Qed.

Lemma started_or_not (before after : nat) :
  after ≤ before + 1 → after ≤ before + (if before <? after then 1 else 0).
Proof. intros H. destruct (Nat.ltb_spec before after); lia. Qed.

(** A turn runs the generator off a pending start, or keeps the pending
    starts but for the one it arms. *)
Lemma step_balance st signal :
  (if runsSimulation st signal then 1 else 0) + simulations (step st signal)
  ≤ simulations st + (if startsFallback st signal then 1 else 0).
Proof.
  unfold startsFallback, runsSimulation.
  destruct signal as [now [[d|]| |i jitter]]; cbn [snd].
  - apply started_or_not. simpl. destruct (eventSource st); try lia.
    apply effect_simulations_bound, onmessage_effect.
  - apply started_or_not. simpl. destruct (eventSource st); lia.
  - apply started_or_not. simpl. destruct (eventSource st); try lia.
    apply effect_simulations_bound, onerror_effect.
  - cbn [step]. destruct (timers st !! i) as [t|] eqn:Ht; [|apply started_or_not; lia].
    pose proof (simulations_delete i (timers st)) as Hdel.
    set (st1 := setTimers (delete i (timers st)) st) in *.
    assert (Hst1 : simulations st1 ≤ simulations st) by exact Hdel.
    unfold isSimulation at 1. destruct (callback t) eqn:Hcb; cbn [runCallback].
    + apply started_or_not.
      pose proof (effect_simulations_bound _ _ (watchdog_effect now st1)). lia.
    + assert (Hone : simulations st1 + 1 = simulations st).
      { apply (simulations_delete_simulation i (timers st) t Ht).
        unfold isSimulation. by rewrite Hcb. }
      assert (Hsame : simulations (simulateAgentUpdates jitter st1) = simulations st1).
      { unfold simulations at 1. rewrite simulateAgentUpdates_timers.
        apply simulations_stepTimers. }
      rewrite Hsame. lia.
    + apply started_or_not. unfold simulations at 1.
      destruct (runStep_frame now s st1) as (_ & _ & _ & _ & ->).
      fold (simulations st1). lia.
Qed.

Lemma run_balance signals st :
  simulationRuns signals st + simulations (run signals st)
  ≤ simulations st + fallbackStarts signals st.
Proof.
  revert st. induction signals as [|signal rest IH]; intros st; simpl; [lia|].
  specialize (IH (step st signal)). pose proof (step_balance st signal).
  fold (run rest (step st signal)). lia.
Qed.

(** C5. Whatever the signals of a session (frames, among them TIMEOUT
    frames, stream errors, timers, in any number and order) the fallback
    generator is armed at most once, so that it runs at most once unless a
    start was pending from before; and it is not armed at all after a frame
    has put a live notification in the log. *)
Theorem C5_single_fallback (st : State) (signals : list (string * Event)) :
  fallbackStarts signals st ≤ 1 ∧
  simulationRuns signals st ≤ simulations st + 1 ∧
  ∀ before signal later,
    signals = before ++ signal :: later →
    recordsLive (run before st) signal = true →
    fallbackStarts later (step (run before st) signal) = 0.
Proof.
  assert (Honce : fallbackStarts signals st ≤ 1).
  { revert st. induction signals as [|signal rest IH]; intros st; simpl; [lia|].
    destruct (startsFallback st signal) eqn:Hstart.
    + rewrite (settled_no_starts rest _ (start_settles _ _ Hstart)). lia.
    + apply IH. }
  split; [exact Honce|]. split.
  - pose proof (run_balance signals st). lia.
  - intros before signal later _ Hlive.
    apply settled_no_starts. by apply recordsLive_settles.
Qed.

(** *** The invariant of a session *)

Lemma effect_exclusive st st' :
  exclusive st → demoModeRef st = false → effect st st' → exclusive st'.
Proof.
  intros [Hdemo Hlive] Hd [->|Hr' Hd' Ht _ _|Hc Hr' Hd' Ht _|_ _ Hr' Hd' Hc _ _].
  - by split.
  - split; [congruence|]. intros _. rewrite Ht. by apply Hlive.
  - split; [congruence|]. intros _. rewrite Ht. by apply Hlive.
  - split; [done|congruence].
Qed.

Lemma exclusive_open st : exclusive st → eventSource st = Open → demoModeRef st = false.
Proof.
  intros [Hdemo _] Hopen. destruct (demoModeRef st); [|done].
  destruct Hdemo as [Hc _]; congruence.
Qed.

Lemma exclusive_delete i st :
  exclusive st → exclusive (setTimers (delete i (timers st)) st).
Proof.
  intros [Hdemo Hlive]. split; simpl; [done|].
  intros Hd. by apply Forall_delete, Hlive.
Qed.

Lemma exclusive_step st signal : exclusive st → exclusive (step st signal).
Proof.
  intros Hinv. destruct signal as [now [[d|]| |i jitter]]; simpl.
  - destruct (eventSource st) eqn:Hopen; try done.
    eapply effect_exclusive; [done|by apply exclusive_open|apply onmessage_effect].
  - by destruct (eventSource st).
  - destruct (eventSource st) eqn:Hopen; try done.
    eapply effect_exclusive; [done|by apply exclusive_open|apply onerror_effect].
  - destruct (timers st !! i) as [t|] eqn:Ht; [|done].
    pose proof (exclusive_delete i st Hinv) as Hinv1.
    set (st1 := setTimers (delete i (timers st)) st) in *.
    destruct (callback t) eqn:Hcb; simpl.
    + destruct (demoModeRef st1) eqn:Hd.
      * pose proof Hinv1 as [Hdemo _]. destruct (Hdemo Hd) as [Hc _].
        unfold watchdog. by rewrite Hc.
      * eapply effect_exclusive; [done..|apply watchdog_effect].
    + destruct (simulateAgentUpdates_frame jitter st1) as (_ & _ & _ & _ & Hd & Hr & He).
      destruct Hinv as [Hdemo Hlive]. unfold exclusive. rewrite Hd, Hr, He. simpl.
      destruct (demoModeRef st) eqn:Hdm; [by split|].
      pose proof (Forall_lookup_1 _ _ _ _ (Hlive eq_refl) Ht) as Hno.
      unfold fallbackTimer in Hno. by rewrite Hcb in Hno.
    + destruct (runStep_frame now s st1) as (_ & Hd & Hr & He & Htm).
      destruct Hinv1 as [Hdemo Hlive]. unfold exclusive. by rewrite Hd, Hr, He, Htm.
Qed.

Lemma exclusive_run signals st : exclusive st → exclusive (run signals st).
Proof.
  revert st. induction signals as [|signal rest IH]; intros st Hinv; [done|].
  simpl. apply IH. by apply exclusive_step.
Qed.

Lemma effect_mode st st' :
  hasRealUpdatesRef st = true → effect st st' → hasRealUpdatesRef st' = true.
Proof. intros Hr [->|? _ _ _ _|_ ? _ _ _|? _ _ _ _ _ _]; congruence. Qed.

(** Once the mode is fixed a turn keeps it. *)
Lemma step_mode st signal :
  exclusive st → mode st ≠ NoMode → mode (step st signal) = mode st.
Proof.
  intros Hinv Hmode. unfold mode in *.
  destruct (hasRealUpdatesRef st) eqn:Hr.
  - assert (hasRealUpdatesRef (step st signal) = true) as ->; [|done].
    destruct signal as [now [[d|]| |i jitter]]; simpl.
    + destruct (eventSource st); try done.
      eapply effect_mode; [done|apply onmessage_effect].
    + by destruct (eventSource st).
    + destruct (eventSource st); try done.
      eapply effect_mode; [done|apply onerror_effect].
    + destruct (timers st !! i) as [t|]; [|done].
      destruct (callback t); cbn [runCallback].
      * eapply effect_mode; [|apply watchdog_effect]. done.
      * by destruct (simulateAgentUpdates_frame jitter (setTimers (delete i (timers st)) st))
          as (_ & _ & _ & _ & _ & -> & _).
      * by destruct (runStep_frame now s (setTimers (delete i (timers st)) st))
          as (_ & _ & -> & _ & _).
  - destruct (demoModeRef st) eqn:Hd; [|done].
    destruct Hinv as [Hdemo _]. destruct (Hdemo Hd) as [Hc _].
    destruct signal as [now [[d|]| |i jitter]]; simpl; rewrite ?Hc, ?Hr, ?Hd; try done.
    destruct (timers st !! i) as [t|]; [|by rewrite Hr, Hd].
    destruct (callback t); cbn [runCallback].
    + unfold watchdog. simpl. rewrite Hc. simpl. by rewrite Hr, Hd.
    + destruct (simulateAgentUpdates_frame jitter (setTimers (delete i (timers st)) st))
        as (_ & _ & _ & _ & -> & -> & _). simpl. by rewrite Hr, Hd.
    + destruct (runStep_frame now s (setTimers (delete i (timers st)) st))
        as (_ & -> & -> & _ & _). simpl. by rewrite Hr, Hd.
Qed.

Lemma run_mode signals st :
  exclusive st → mode st ≠ NoMode → mode (run signals st) = mode st.
Proof.
  revert st. induction signals as [|signal rest IH]; intros st Hinv Hmode; [done|].
  simpl. rewrite IH.
  - by apply step_mode.
  - by apply exclusive_step.
  - by rewrite step_mode.
Qed.

Lemma noVerdict_push now a s m st :
  verdictKey (update_key a s m) = false → noVerdict st →
  noVerdict (pushUpdate now a s m st).
Proof.
  intros Hkey Hno k. unfold pushUpdate. case_bool_decide; simpl; [apply Hno|].
  intros [Hk|Hk]%elem_of_union; [|by apply Hno].
  apply elem_of_singleton in Hk. by subst k.
Qed.

Lemma startRealTimeStream_frame st :
  file (startRealTimeStream st) = file st ∧
  loading (startRealTimeStream st) = loading st ∧
  eventSource (startRealTimeStream st) = Open ∧
  hasRealUpdatesRef (startRealTimeStream st) = hasRealUpdatesRef st ∧
  demoModeRef (startRealTimeStream st) = demoModeRef st ∧
  timers (startRealTimeStream st) = timers st ++ [mkTimer 30000 Watchdog] ∧
  emittedUpdatesRef (startRealTimeStream st) = emittedUpdatesRef st.
Proof. done. Qed.

(** The state in which [handleSubmit] leaves a session whose upload
    succeeded. *)
Lemma handleSubmit_uploaded prev f now1 now2 id :
  file prev = Some f → timers prev = [] →
  let st := handleSubmit now1 now2 (Uploaded id) prev in
  file st = Some f ∧ loading st = true ∧ eventSource st = Open ∧
  hasRealUpdatesRef st = false ∧ demoModeRef st = false ∧
  timers st = [mkTimer 30000 Watchdog] ∧ noVerdict st.
Proof.
  intros Hfile Htimers st. subst st. unfold handleSubmit. rewrite Hfile.
  set (st1 := pushUpdate now1 "System" "processing" _ (resetForUpload prev)).
  set (st2 := pushUpdate now2 "Orchestrator" "complete" _ (setExpenseId (Some id) st1)).
  destruct (startRealTimeStream_frame st2) as (-> & -> & -> & -> & -> & -> & Hemitted).
  assert (Hno : noVerdict st2).
  { subst st2. apply noVerdict_push; [reflexivity|].
    subst st1. intros k. simpl. apply noVerdict_push; [reflexivity|].
    intros k' Hk'. simpl in Hk'. by apply elem_of_empty in Hk'. }
  split; [|split; [|split; [|split; [|split; [|split]]]]].
  - subst st2. rewrite pushUpdate_file. simpl. subst st1. by rewrite pushUpdate_file.
  - subst st2. rewrite pushUpdate_loading. simpl. subst st1. by rewrite pushUpdate_loading.
  - reflexivity.
  - subst st2. rewrite pushUpdate_hasRealUpdatesRef. simpl. subst st1.
    by rewrite pushUpdate_hasRealUpdatesRef.
  - subst st2. rewrite pushUpdate_demoModeRef. simpl. subst st1.
    by rewrite pushUpdate_demoModeRef.
  - subst st2. rewrite pushUpdate_timers. simpl. subst st1.
    rewrite pushUpdate_timers. simpl. by rewrite Htimers.
  - intros k Hk. apply Hno. by rewrite <- Hemitted.
Qed.

Lemma handleSubmit_exclusive prev f now1 now2 id :
  file prev = Some f → Forall (λ t, fallbackTimer t = false) (timers prev) →
  exclusive (handleSubmit now1 now2 (Uploaded id) prev).
Proof.
  intros Hfile Htimers. unfold handleSubmit. rewrite Hfile.
  set (st2 := pushUpdate now2 "Orchestrator" "complete" _ _).
  destruct (startRealTimeStream_frame st2) as (_ & _ & He & Hr & Hd & Ht & _).
  unfold exclusive. rewrite He, Hr, Hd, Ht. subst st2.
  autorewrite with push. simpl. autorewrite with push. simpl.
  split; [done|]. intros _. apply Forall_app. split; [done|]. by repeat constructor.
Qed.

(** C1. In a session, started from a page on which no timer of an earlier
    fallback is pending, in any order of the signals: once
    [triggerDemoMode] has put the session in demo mode no
    frame of the stream (stage, verdict or other) changes the state, so none
    adds a notification or changes the mode; once a live update has put it
    in live mode no signal of the fallback (a TIMEOUT frame, a stream error,
    a timer) adds a notification; and a mode that is fixed stays as it is. *)
Theorem C1_mode_exclusive (prev : State) (f : File) (now1 now2 id : string)
    (signals : list (string * Event)) :
  file prev = Some f → Forall (λ t, fallbackTimer t = false) (timers prev) →
  let st := run signals (handleSubmit now1 now2 (Uploaded id) prev) in
  (mode st = Demo → ∀ now data, step st (now, Message data) = st) ∧
  (mode st = Live → ∀ now,
     (∀ i jitter, updates (step st (now, TimerFires i jitter)) = updates st) ∧
     updates (step st (now, StreamError)) = updates st ∧
     (∀ data, is_string "TIMEOUT" (opt_get "status" data) = true →
        updates (step st (now, Message (Some data))) = updates st)) ∧
  (mode st ≠ NoMode → ∀ later, mode (run later st) = mode st).
Proof.
  intros Hfile Htimers st.
  assert (Hinv : exclusive st).
  { apply exclusive_run. by eapply handleSubmit_exclusive. }
  split; [|split].
  - unfold mode. intros Hmode now data.
    destruct (hasRealUpdatesRef st); [done|].
    destruct (demoModeRef st) eqn:Hd; [|done].
    destruct Hinv as [Hdemo _]. destruct (Hdemo Hd) as [Hc _].
    simpl. by rewrite Hc.
  - unfold mode. intros Hmode now.
    destruct (hasRealUpdatesRef st) eqn:Hr; [|by destruct (demoModeRef st)].
    assert (Hd : demoModeRef st = false).
    { destruct Hinv as [Hdemo _]. destruct (demoModeRef st); [|done].
      destruct (Hdemo eq_refl) as [_ ?]. congruence. }
    split; [|split].
    + intros i jitter. simpl.
      destruct (timers st !! i) as [t|] eqn:Ht; [|done].
      destruct Hinv as [_ Hlive].
      pose proof (Forall_lookup_1 _ _ _ _ (Hlive Hd) Ht) as Hno.
      unfold fallbackTimer in Hno. destruct (callback t); try done.
      simpl. unfold watchdog. simpl. rewrite Hr. by destruct (eventSource st).
    + simpl. destruct (eventSource st); try done. unfold onerror. by rewrite Hr.
    + intros data Htimeout. simpl. destruct (eventSource st); try done.
      unfold onmessage. by rewrite Htimeout, Hr.
  - intros Hmode later. by apply run_mode.
Qed.

(** *** Silent sessions and the watchdog *)











End Turns.

(** ** What every callback keeps *)

Lemma writes_trans st1 st2 st3 : writes st1 st2 → writes st2 st3 → writes st1 st3.
Proof. intros H12 H23. induction H23; by try constructor. Qed.

Ltac chain_of_writes := repeat first [apply writes_none | constructor].

Lemma triggerDemoMode_writes now message st : writes st (triggerDemoMode now message st).
Proof.
  unfold triggerDemoMode, setTimeout. destruct (_ || _); chain_of_writes.
Qed.

Lemma watchdog_writes now st : writes st (watchdog now st).
Proof.
  unfold watchdog, close.
  destruct (eventSource st); try apply writes_none;
    (destruct (negb _); simpl; [apply writes_closed, triggerDemoMode_writes|chain_of_writes]).
Qed.

Lemma runStep_writes now s st : writes st (runStep now s st).
Proof. unfold runStep. destruct (_ && _); chain_of_writes. Qed.

Section Writes.
Context {rt : JsRuntime}.

Lemma handleFinalStatus_writes now finalStatus doc st :
  writes st (handleFinalStatus now finalStatus doc st).
Proof.
  unfold handleFinalStatus, close, markRealUpdate.
  match goal with |- writes _ (match ?shown with _ => _ end) => destruct shown end;
    chain_of_writes.
Qed.

Lemma stageWithFindings_writes now agent found render st :
  writes st (stageWithFindings now agent found render st).
Proof.
  unfold stageWithFindings, markRealUpdate.
  destruct (truthy found); [|apply writes_none].
  destruct (render found); chain_of_writes.
Qed.

Lemma onmessage_writes now data st : writes st (onmessage now data st).
Proof.
  unfold onmessage.
  destruct (is_string "TIMEOUT" (opt_get "status" data)).
  { unfold close. destruct (negb _); [apply writes_closed, triggerDemoMode_writes|].
    chain_of_writes. }
  destruct (truthy (opt_get "error" data)).
  { unfold close. destruct (ToString _); chain_of_writes. }
  destruct (get "status" data) as [s|]; [|apply writes_none].
  repeat match goal with
  | |- writes _ (if ?b then _ else _) => destruct b
  end;
  first [ apply handleFinalStatus_writes
        | apply stageWithFindings_writes
        | unfold close, markRealUpdate; chain_of_writes ].
Qed.

Lemma onerror_writes now st : writes st (onerror now st).
Proof.
  unfold onerror, close. destruct (hasRealUpdatesRef st); [chain_of_writes|].
  eapply writes_trans; [|apply triggerDemoMode_writes]. chain_of_writes.
Qed.

Lemma simulateAgentUpdates_writes jitter st : writes st (simulateAgentUpdates jitter st).
Proof. unfold simulateAgentUpdates, steps, setTimeout. simpl. chain_of_writes. Qed.

Lemma step_writes st signal : writes st (step st signal).
Proof.
  destruct signal as [now [[d|]| |i jitter]]; simpl.
  - destruct (eventSource st); try apply writes_none. apply onmessage_writes.
  - destruct (eventSource st); apply writes_none.
  - destruct (eventSource st); try apply writes_none. apply onerror_writes.
  - destruct (timers st !! i) as [t|]; [|apply writes_none].
    eapply writes_trans; [apply writes_timers, writes_none|].
    destruct (callback t); cbn [runCallback].
    + apply watchdog_writes.
    + apply simulateAgentUpdates_writes.
    + apply runStep_writes.
Qed.

Lemma run_writes signals st : writes st (run signals st).
Proof.
  revert st. induction signals as [|signal rest IH]; intros st; [apply writes_none|].
  simpl. eapply writes_trans; [apply step_writes|apply IH].
Qed.

End Writes.

Lemma writes_kept st st' :
  writes st st' →
  file st' = file st ∧ expenseId st' = expenseId st ∧ error st' = error st ∧
  updates st `prefix_of` updates st' ∧
  (loading st = false → loading st' = false) ∧
  (log_synced st → log_synced st') ∧
  (log_synced st → NoDup (triple <$> updates st) → NoDup (triple <$> updates st')) ∧
  ((∀ k, k ∈ emittedUpdatesRef st → ∃ u, u ∈ updates st ∧ keyOf u = k) →
   ∀ k, k ∈ emittedUpdatesRef st' → ∃ u, u ∈ updates st' ∧ keyOf u = k).
Proof.
  induction 1 as [|now a s m st' _ IH|st' _ IH|value st' _ IH|st' _ IH|st' _ IH|ts st' _ IH];
    [by repeat split|..]; destruct IH as (Hf & Hi & He & Hp & Hl & Hs & Hn & Hk);
    try (by repeat split).
  autorewrite with push. repeat split; try done.
  - etrans; [exact Hp|apply pushUpdate_prefix].
  - intros Hsync. by apply pushUpdate_synced, Hs.
  - intros Hsync Hnodup. apply pushUpdate_nodup; auto.
  - intros Hkeys k. specialize (Hk Hkeys).
    unfold pushUpdate. case_bool_decide; simpl; [apply Hk|].
    intros [Hnew|Hold]%elem_of_union.
    + apply elem_of_singleton in Hnew. subst k.
      exists (mkUpdate a s m now). split; [|done].
      apply elem_of_app. right. apply list_elem_of_here.
    + destruct (Hk k Hold) as (u & Hu & Hku). exists u. split; [|done].
      apply elem_of_app. by left.
Qed.

(** ** The log, the flags and the page along a session *)

Lemma logMatches_split st :
  logMatches st ↔
  log_synced st ∧ NoDup (triple <$> updates st) ∧
  (∀ k, k ∈ emittedUpdatesRef st → ∃ u, u ∈ updates st ∧ keyOf u = k).
Proof.
  unfold logMatches, log_synced. split.
  - intros [Hn Hk]. split; [|split; [done|]].
    + intros u Hu. apply Hk. by exists u.
    + intros k Hin. by apply Hk.
  - intros (Hs & Hn & Hk). split; [done|]. intros k. split; [apply Hk|].
    intros (u & Hu & <-). by apply Hs.
Qed.

Lemma writes_logMatches st st' : writes st st' → logMatches st → logMatches st'.
Proof.
  intros Hw (Hs & Hn & Hk)%logMatches_split. apply logMatches_split.
  destruct (writes_kept _ _ Hw) as (_ & _ & _ & _ & _ & Hs' & Hn' & Hk'). auto.
Qed.

Lemma logMatches_same st st' :
  updates st' = updates st → emittedUpdatesRef st' = emittedUpdatesRef st →
  logMatches st → logMatches st'.
Proof. unfold logMatches. by intros -> ->. Qed.

Lemma resetForUpload_logMatches st : logMatches (resetForUpload st).
Proof.
  split; simpl; [apply NoDup_nil_2|]. intros k. split.
  - by intros ?%elem_of_empty.
  - by intros (u & ?%elem_of_nil & _).
Qed.

Lemma pushUpdate_logMatches now a s m st :
  logMatches st → logMatches (pushUpdate now a s m st).
Proof. apply writes_logMatches. apply writes_push, writes_none. Qed.

Section SessionFacts.
Context {rt : JsRuntime}.

Lemma uploadFailed_logMatches now thrown st :
  logMatches st → logMatches (uploadFailed now thrown st).
Proof.
  intros H. unfold uploadFailed.
  set (st1 := setError (Some (default "Upload failed" thrown)) st).
  assert (H1 : logMatches st1) by exact (logMatches_same st st1 eq_refl eq_refl H).
  set (st2 := pushUpdate now "System" "error" _ st1).
  assert (H2 : logMatches st2) by (by apply pushUpdate_logMatches).
  exact (logMatches_same st2 (setLoading false st2) eq_refl eq_refl H2).
Qed.

Lemma handleSubmit_logMatches prev f now1 now2 upload :
  file prev = Some f → logMatches (handleSubmit now1 now2 upload prev).
Proof.
  intros Hfile. unfold handleSubmit. rewrite Hfile.
  pose proof (pushUpdate_logMatches now1 "System" "processing"
    "Uploading receipt to Cloud Storage..." _ (resetForUpload_logMatches prev)) as H1.
  set (st1 := pushUpdate now1 "System" "processing" _ (resetForUpload prev)) in *.
  clearbody st1.
  destruct upload as [thrown|statusText|id].
  - by apply uploadFailed_logMatches.
  - by apply uploadFailed_logMatches.
  - set (st2 := setExpenseId (Some id) st1).
    assert (H2 : logMatches st2) by exact (logMatches_same st1 st2 eq_refl eq_refl H1).
    set (st3 := pushUpdate now2 "Orchestrator" "complete" _ st2).
    assert (H3 : logMatches st3) by (by apply pushUpdate_logMatches).
    exact (logMatches_same st3 (startRealTimeStream st3) eq_refl eq_refl H3).
Qed.

(** X1. No signal of a session, frame, stream error or timer, touches the
    selected file, the expense id or the error box, and none removes or
    changes a notification: the log before is a prefix of the log after. *)
Theorem X1_run_appends_only (st : State) (signals : list (string * Event)) :
  updates st `prefix_of` updates (run signals st) ∧
  file (run signals st) = file st ∧
  expenseId (run signals st) = expenseId st ∧
  error (run signals st) = error st.
Proof.
  destruct (writes_kept _ _ (run_writes signals st)) as (Hf & Hi & He & Hp & _).
  by repeat split.
Qed.

(** X2. Along a session, whatever the upload gave and whatever signals
    follow, the notifications of the log are pairwise distinct and the
    emitted keys are exactly the keys of the logged notifications: a
    notification is dropped only when the log shows one with its key. *)
Theorem X2_session_log_matches (prev : State) (f : File) (now1 now2 : string)
    (upload : Upload) (signals : list (string * Event)) :
  file prev = Some f →
  logMatches (run signals (handleSubmit now1 now2 upload prev)).
Proof.
  intros Hfile. eapply writes_logMatches; [apply run_writes|].
  by eapply handleSubmit_logMatches.
Qed.

(** X3. Once [loading] is off no signal turns it on again: a session that
    completed stays completed. *)
Theorem X3_loading_stays_off (st : State) (signals : list (string * Event)) :
  loading st = false → loading (run signals st) = false.
Proof.
  destruct (writes_kept _ _ (run_writes signals st)) as (_ & _ & _ & _ & Hl & _).
  exact Hl.
Qed.

Lemma handleFinalStatus_loading now finalStatus doc st :
  loading (handleFinalStatus now finalStatus doc st) = loading st ∨
  eventSource (handleFinalStatus now finalStatus doc st) = Closed.
Proof.
  unfold handleFinalStatus.
  match goal with |- context [match ?shown with _ => _ end] => destruct shown end;
    [by right|by left].
Qed.

Lemma stageWithFindings_loading now agent found render st :
  loading (stageWithFindings now agent found render st) = loading st.
Proof.
  unfold stageWithFindings. destruct (truthy found); [|done].
  destruct (render found); simpl; by autorewrite with push.
Qed.

Lemma triggerDemoMode_loading now message st :
  loading (triggerDemoMode now message st) = loading st.
Proof.
  unfold triggerDemoMode. destruct (_ || _); simpl; by autorewrite with push.
Qed.

Lemma onmessage_loading now data st :
  loading (onmessage now data st) = loading st ∨
  eventSource (onmessage now data st) = Closed.
Proof.
  unfold onmessage.
  destruct (is_string "TIMEOUT" (opt_get "status" data)); [by right|].
  destruct (truthy (opt_get "error" data)).
  { destruct (ToString _); [by right|by left]. }
  destruct (get "status" data) as [s|]; [|by left].
  repeat match goal with
  | |- context [if ?b then _ else _] => destruct b
  end;
  first [ apply handleFinalStatus_loading
        | left; apply stageWithFindings_loading
        | by right
        | left; simpl; by autorewrite with push ].
Qed.

Lemma step_closed st signal :
  eventSource st = Closed → eventSource (step st signal) = Closed.
Proof.
  intros Hc. destruct signal as [now [[d|]| |i jitter]]; simpl; rewrite ?Hc; try done.
  destruct (timers st !! i) as [t|]; [|done].
  destruct (callback t); cbn [runCallback].
  - apply watchdog_closed.
  - by destruct (simulateAgentUpdates_frame jitter (setTimers (delete i (timers st)) st))
      as (_ & _ & _ & _ & _ & _ & ->).
  - by destruct (runStep_frame now s (setTimers (delete i (timers st)) st))
      as (_ & _ & _ & -> & _).
Qed.

Lemma completedClosed_step st signal :
  exclusive st → completedClosed st → completedClosed (step st signal).
Proof.
  intros Hinv Hdone Hoff.
  destruct (loading st) eqn:Hl; [|by apply step_closed, Hdone].
  destruct signal as [now [[d|]| |i jitter]]; simpl in *.
  - destruct (eventSource st) eqn:Hopen; try congruence.
    destruct (onmessage_loading now d st) as [Hsame|Hc]; congruence.
  - destruct (eventSource st); congruence.
  - destruct (eventSource st) eqn:Hopen; try congruence.
    unfold onerror. destruct (hasRealUpdatesRef st); [done|].
    unfold triggerDemoMode. destruct (_ || _); simpl; by autorewrite with push.
  - destruct (timers st !! i) as [t|] eqn:Ht; [|congruence].
    destruct (callback t) eqn:Hcb; cbn [runCallback] in *.
    + apply watchdog_closed.
    + destruct (simulateAgentUpdates_frame jitter (setTimers (delete i (timers st)) st))
        as (_ & Hsame & _). rewrite Hsame in Hoff. simpl in Hoff. congruence.
    + destruct (runStep_frame now s (setTimers (delete i (timers st)) st))
        as (_ & _ & _ & -> & _). simpl.
      destruct Hinv as [Hdemo Hlive]. destruct (demoModeRef st) eqn:Hd.
      * by destruct (Hdemo eq_refl).
      * pose proof (Forall_lookup_1 _ _ _ _ (Hlive eq_refl) Ht) as Hno.
        unfold fallbackTimer in Hno. by rewrite Hcb in Hno.
Qed.

Lemma completedClosed_run signals st :
  exclusive st → completedClosed st → completedClosed (run signals st).
Proof.
  revert st. induction signals as [|signal rest IH]; intros st Hinv Hdone; [done|].
  simpl. apply IH; [by apply exclusive_step|by apply completedClosed_step].
Qed.

Lemma handleSubmit_uploaded_page prev f now1 now2 id :
  file prev = Some f →
  let st := handleSubmit now1 now2 (Uploaded id) prev in
  file st = Some f ∧ expenseId st = Some id ∧ loading st = true ∧
  0 < length (updates st).
Proof.
  intros Hfile st. subst st. unfold handleSubmit. rewrite Hfile.
  set (st1 := pushUpdate now1 "System" "processing" _ (resetForUpload prev)).
  assert (Hu1 : 0 < length (updates st1)).
  { subst st1. destruct (pushUpdate_fresh now1 "System" "processing"
      "Uploading receipt to Cloud Storage..." (resetForUpload prev)) as [-> _].
    - simpl. apply not_elem_of_empty.
    - simpl. lia. }
  set (st2 := setExpenseId (Some id) st1).
  set (st3 := pushUpdate now2 "Orchestrator" "complete" _ st2).
  destruct (startRealTimeStream_frame st3) as (-> & -> & _).
  assert (Hu3 : 0 < length (updates st3)).
  { pose proof (prefix_length _ _ (pushUpdate_prefix now2 "Orchestrator" "complete"
      ("✅ Receipt uploaded! Expense ID: " +:+ substring id 0 8 +:+ "...") st2)) as Hlen.
    fold st3 in Hlen. change (updates st2) with (updates st1) in Hlen. lia. }
  change (expenseId (startRealTimeStream st3)) with (expenseId st3).
  change (updates (startRealTimeStream st3)) with (updates st3).
  split; [|split; [|split]].
  - subst st3. rewrite pushUpdate_file. subst st2 st1.
    change (file (setExpenseId (Some id) ?x)) with (file x).
    by rewrite pushUpdate_file.
  - subst st3. by rewrite pushUpdate_expenseId.
  - subst st3. rewrite pushUpdate_loading. subst st2 st1.
    change (loading (setExpenseId (Some id) ?x)) with (loading x).
    by rewrite pushUpdate_loading.
  - exact Hu3.
Qed.

(** X4. In a session, started from a page on which no timer of an earlier
    fallback is pending, [loading] goes off only with the stream closed:
    when the page lets the user submit again, no frame of this session can
    arrive any more. *)
Theorem X4_completed_session_is_closed (prev : State) (f : File)
    (now1 now2 id : string) (signals : list (string * Event)) :
  file prev = Some f → Forall (λ t, fallbackTimer t = false) (timers prev) →
  let st := run signals (handleSubmit now1 now2 (Uploaded id) prev) in
  loading st = false →
  eventSource st = Closed ∧ ∀ now data, step st (now, Message data) = st.
Proof.
  intros Hfile Htimers st Hoff.
  pose proof (handleSubmit_exclusive prev f now1 now2 id Hfile Htimers) as Hinv.
  destruct (handleSubmit_uploaded_page prev f now1 now2 id Hfile) as (_ & _ & Hon & _).
  assert (Hdone : completedClosed (handleSubmit now1 now2 (Uploaded id) prev)).
  { intros Hl. congruence. }
  pose proof (completedClosed_run signals _ Hinv Hdone Hoff) as Hc.
  fold st in Hc. clearbody st.
  split; [exact Hc|]. intros now data. unfold step.
  destruct data; by rewrite Hc.
Qed.

(** X5. In such a session the demo flag, which puts the Demo Mode notice on
    the page, is never set while the stream is open nor after a live update:
    the page shows the notice of the live stream or the notice of the
    simulation, according to the source of the log. *)
Theorem X5_demo_flag_exclusive (prev : State) (f : File) (now1 now2 id : string)
    (signals : list (string * Event)) :
  file prev = Some f → Forall (λ t, fallbackTimer t = false) (timers prev) →
  let st := run signals (handleSubmit now1 now2 (Uploaded id) prev) in
  demoModeRef st = true → eventSource st = Closed ∧ hasRealUpdatesRef st = false.
Proof.
  intros Hfile Htimers st.
  assert (Hinv : exclusive st); [|apply Hinv].
  apply exclusive_run. by eapply handleSubmit_exclusive.
Qed.

(** X6. In a session whose upload gave an id that is not empty, the panel
    of the activity is always shown, the submit button is disabled exactly
    while [loading] is on, and the banner Audit Complete is shown exactly
    when [loading] is off, whatever turned it off: a verdict, an error frame
    or a failed stage. *)
Theorem X6_page_of_a_session (prev : State) (f : File) (now1 now2 id : string)
    (signals : list (string * Event)) :
  file prev = Some f → id ≠ EmptyString →
  let st := run signals (handleSubmit now1 now2 (Uploaded id) prev) in
  showsActivity st = true ∧ showsReady st = false ∧
  submitDisabled st = loading st ∧
  showsComplete st = negb (loading st).
Proof.
  intros Hfile Hid st.
  destruct (handleSubmit_uploaded_page prev f now1 now2 id Hfile) as (Hf0 & Hi0 & _ & Hu0).
  destruct (writes_kept _ _ (run_writes signals (handleSubmit now1 now2 (Uploaded id) prev)))
    as (Hf & Hi & _ & Hp & _).
  fold st in Hf, Hi, Hp. apply prefix_length in Hp.
  assert (Hhas : hasExpenseId st = true).
  { unfold hasExpenseId. rewrite Hi, Hi0. by destruct (String.eqb_spec id EmptyString). }
  unfold showsActivity, showsReady, submitDisabled, showsComplete.
  rewrite Hhas, Hf, Hf0.
  assert ((0 <? length (updates st)) = true) as -> by (apply Nat.ltb_lt; lia).
  destruct (loading st); by repeat split.
Qed.

End SessionFacts.

(** ** What [onmessage] does with a frame *)

Section Frames.
Context {rt : JsRuntime}.

Lemma nullish_falsy v : nullish v = true → truthy v = false.
Proof. by destruct v. Qed.

Lemma get_status data code :
  opt_get "status" data = VStr code → get "status" data = Some (VStr code).
Proof.
  unfold get, opt_get. destruct (nullish data); [discriminate|]. by intros ->.
Qed.

Lemma handleFinalStatus_default now finalStatus doc st message :
  nullish (opt_get "summary" (opt_get "synthesis" (opt_get "findings" doc))) = true →
  (if is_string "APPROVED" finalStatus then Some "🎉 All checks passed."
   else if is_string "REJECTED" finalStatus then Some "❌ Policy violation detected."
   else if is_string "NEEDS_REVIEW" finalStatus then Some "⚠️ Needs manual review."
   else s ← ToString finalStatus; Some ("Status: " +:+ s)) = Some message →
  handleFinalStatus now finalStatus doc st =
    close (setLoading false
      (pushUpdate now "Synthesis Agent" "complete" message (markRealUpdate st))).
Proof.
  intros Hnull Hmessage. unfold handleFinalStatus.
  rewrite Hnull, (nullish_falsy _ Hnull), Hmessage. reflexivity.
Qed.

(** X7. A frame without error and without a summary of the synthesis whose
    status is APPROVED, REJECTED, NEEDS_REVIEW or FAILED, or whose status is
    DONE with one of these as [finalStatus], marks the session live, logs the
    verdict of the Synthesis Agent with the text of that status (for FAILED
    the text is [Status: FAILED]), turns [loading] off and closes the
    stream. *)
Theorem X7_verdict_frame (now : string) (data : jsval) (st : State)
    (code message : string) :
  (code, message) ∈
    [ ("APPROVED", "🎉 All checks passed."); ("REJECTED", "❌ Policy violation detected.");
      ("NEEDS_REVIEW", "⚠️ Needs manual review."); ("FAILED", "Status: FAILED") ] →
  truthy (opt_get "error" data) = false →
  nullish (opt_get "summary" (opt_get "synthesis" (opt_get "findings" data))) = true →
  opt_get "status" data = VStr code ∨
  (opt_get "status" data = VStr "DONE" ∧ prop "finalStatus" data = VStr code) →
  onmessage now data st =
    close (setLoading false
      (pushUpdate now "Synthesis Agent" "complete" message (markRealUpdate st))).
Proof.
  intros Hin Herror Hnull Hstatus.
  assert (Hcases : (code, message) = ("APPROVED", "🎉 All checks passed.") ∨
                   (code, message) = ("REJECTED", "❌ Policy violation detected.") ∨
                   (code, message) = ("NEEDS_REVIEW", "⚠️ Needs manual review.") ∨
                   (code, message) = ("FAILED", "Status: FAILED")).
  { rewrite !elem_of_cons, elem_of_nil in Hin. tauto. }
  unfold onmessage. destruct Hstatus as [Hs|[Hs Hfinal]];
    rewrite (get_status _ _ Hs), Hs, Herror.
  - destruct Hcases as [H|[H|[H|H]]]; injection H as -> ->; simpl;
      by apply handleFinalStatus_default.
  - rewrite Hfinal.
    destruct Hcases as [H|[H|[H|H]]]; injection H as -> ->; simpl;
      by apply handleFinalStatus_default.
Qed.

(** X8. A frame without error whose status is none of the fourteen codes
    that [onmessage] acts on (no status, a status that is not a string, an
    unknown code, or a value that is not an object) leaves the state as it
    was; so does a DONE frame without [finalStatus]. *)
Theorem X8_unhandled_frame_ignored (now : string) (data : jsval) (st : State) :
  truthy (opt_get "error" data) = false →
  (Forall (λ code, is_string code (opt_get "status" data) = false) handledStatus →
   onmessage now data st = st) ∧
  (opt_get "status" data = VStr "DONE" → truthy (prop "finalStatus" data) = false →
   onmessage now data st = st).
Proof.
  intros Herror. split.
  - intros Hnone. unfold handledStatus in Hnone.
    repeat match goal with
    | H : Forall _ (_ :: _) |- _ => apply Forall_cons in H as [? H]
    end.
    unfold onmessage.
    replace (is_string "TIMEOUT" (opt_get "status" data)) with false.
    rewrite Herror. unfold get. unfold opt_get in *.
    destruct (nullish data); [done|].
    destruct (truthy (prop "status" data));
      repeat match goal with
      | H : is_string ?c ?v = false |- context [is_string ?c ?v] => rewrite H
      end; reflexivity.
  - intros Hs Hfinal. unfold onmessage.
    rewrite (get_status _ _ Hs), Hs, Herror. simpl. by rewrite Hfinal.
Qed.

(** X9. A frame with an [error] that can be shown, and whose status is not
    TIMEOUT, logs it as an error of System, turns [loading] off and closes
    the stream whatever else the frame holds, without marking the session
    live or demo.  The TIMEOUT status comes first: after a live update a
    TIMEOUT frame only closes the stream, and an [error] it carries is not
    shown. *)
Theorem X9_error_frame (now : string) (data : jsval) (st : State) :
  (∀ e, is_string "TIMEOUT" (opt_get "status" data) = false →
     truthy (opt_get "error" data) = true →
     ToString (opt_get "error" data) = Some e →
     onmessage now data st =
       close (setLoading false (pushUpdate now "System" "error" ("❌ " +:+ e) st)) ∧
     mode (onmessage now data st) = mode st) ∧
  (is_string "TIMEOUT" (opt_get "status" data) = true →
     hasRealUpdatesRef st = true →
     onmessage now data st = close st).
Proof.
  split.
  - intros e Htimeout Herror Hshown. unfold onmessage.
    rewrite Htimeout, Herror, Hshown. split; [done|].
    unfold mode. simpl. by autorewrite with push.
  - intros Htimeout Hlive. unfold onmessage. by rewrite Htimeout, Hlive.
Qed.

Lemma traverse_nullish items :
  (∃ x, x ∈ items ∧ nullish x = true) → traverse (get "action") items = None.
Proof.
  intros (x & Hin & Hnull). induction items as [|y items IH]; [by apply elem_of_nil in Hin|].
  apply elem_of_cons in Hin as [<-|Hin]; simpl.
  - unfold get. by rewrite Hnull.
  - rewrite (IH Hin). by destruct (get "action" y).
Qed.

(** X10. A REMEDIATION_COMPLETE frame whose remediation needs remedies but
    whose [recommendations] are not an array, or are an array with a [null]
    anywhere in it (also after the two that would be shown), marks the
    session live and logs nothing: building the message throws after
    [markRealUpdate] and the [catch] swallows it. *)
Theorem X10_malformed_remediation (now : string) (data : jsval) (st : State) :
  stageFrame "REMEDIATION_COMPLETE" data →
  let remediation := prop "remediation" (findingsOf data) in
  truthy remediation = true →
  truthy (prop "needs_remediation" remediation) = true →
  match prop "recommendations" remediation with
  | VArr items => ∃ x, x ∈ items ∧ nullish x = true
  | _ => True
  end →
  onmessage now data st = markRealUpdate st ∧
  updates (onmessage now data st) = updates st ∧
  hasRealUpdatesRef (onmessage now data st) = true.
Proof.
  intros Hframe remediation Hfound Hneeds Hbad.
  assert (Hthrows : remediationCompleteMessage remediation = None).
  { unfold remediationCompleteMessage. rewrite Hneeds.
    destruct (prop "recommendations" remediation); try done.
    by rewrite (traverse_nullish _ Hbad). }
  assert (Hresult : onmessage now data st = markRealUpdate st).
  { unfold onmessage. rewrite (stageFrame_get _ _ Hframe).
    destruct Hframe as [-> ->]. simpl. unfold stageWithFindings.
    fold remediation. by rewrite Hfound, Hthrows. }
  rewrite Hresult. by repeat split.
Qed.

End Frames.

(** ** What the fallback generator reads and concludes *)

Lemma totalWord_first c s : letter "t" "T" c = false → totalWord (String c s) = None.
Proof.
  intros H. destruct s as [|c2 [|c3 [|c4 [|c5 r]]]]; simpl; by rewrite ?H.
Qed.

Lemma matchesWithin_no_t before rest :
  occurrences "t" before = 0 → occurrences "T" before = 0 →
  matchesWithin before rest = false.
Proof.
  induction before as [|c before IH]; [done|]. simpl occurrences. intros Ht HT.
  assert (Hc : letter "t" "T" c = false).
  { unfold letter. destruct (Ascii.eqb c "t"), (Ascii.eqb c "T"); simpl in *; lia. }
  simpl matchesWithin. rewrite IH by lia. rewrite orb_false_r.
  apply bool_decide_eq_false. intros [g Hg].
  change (String c before +:+ rest) with (String c (before +:+ rest)) in Hg.
  unfold totalAt in Hg. by rewrite (totalWord_first _ _ Hc) in Hg.
Qed.

(** X11. The pattern of the total has no word boundary: text without the
    letter t before a match is skipped, so [Subtotal: $30.00] is read as a
    total of 30.00 like [total: $30.00]. *)
Theorem X11_total_has_no_word_boundary (before rest : string) :
  occurrences "t" before = 0 → occurrences "T" before = 0 →
  totalMatch (before +:+ rest) = totalMatch rest.
Proof.
  intros Ht HT. apply totalMatch_leftmost. by apply matchesWithin_no_t.
Qed.

Lemma chars_app s1 s2 : chars (s1 +:+ s2) = chars s1 ++ chars s2.
Proof. induction s1 as [|c s1 IH]; [done|]. simpl. by rewrite <- IH. Qed.

Lemma occurrences_app c s1 s2 :
  occurrences c (s1 +:+ s2) = occurrences c s1 + occurrences c s2.
Proof.
  induction s1 as [|c' s1 IH]; [done|].
  change (String c' s1 +:+ s2) with (String c' (s1 +:+ s2)). simpl. rewrite IH. lia.
Qed.

Lemma span_taken p s : Forall (λ c, p c = true) (chars (span p s).1).
Proof.
  induction s as [|c s IH]; simpl; [constructor|].
  destruct (p c) eqn:Hc; [|constructor].
  destruct (span p s) as [taken remaining]. simpl in *. by constructor.
Qed.

Lemma occurrences_none p c s :
  p c = false → Forall (λ c', p c' = true) (chars s) → occurrences c s = 0.
Proof.
  intros Hc. induction s as [|c' s IH]; [done|]. simpl.
  intros [Hp Hs]%Forall_cons. rewrite (IH Hs).
  destruct (Ascii.eqb_spec c' c) as [->|_]; [congruence|done].
Qed.

Lemma totalMatch_found content group :
  totalMatch content = Some group → ∃ rest, totalAt rest = Some group.
Proof.
  induction content as [|c content IH]; rewrite totalMatch_unfold.
  - destruct (totalAt EmptyString) eqn:H; [|done]. intros [= <-]. by eexists.
  - destruct (totalAt (String c content)) eqn:H; [|done]. intros [= <-]. by eexists.
Qed.

Lemma totalAt_shape s group :
  totalAt s = Some group →
  ∃ whole dot fraction,
    group = whole +:+ dot +:+ fraction ∧ whole ≠ EmptyString ∧
    Forall (λ c, is_digit_or_comma c = true) (chars whole) ∧
    (dot = EmptyString ∨ dot = ".") ∧
    Forall (λ c, is_digit c = true) (chars fraction).
Proof.
  unfold totalAt. destruct (totalWord s) as [after_word|]; [|done]. simpl.
  destruct (separator after_word) as [after_one|]; [|done]. simpl.
  set (after_dollar := match skipSeparators after_one with
                       | EmptyString => _ | String _ _ => _ end).
  pose proof (span_taken is_digit_or_comma after_dollar) as Hwhole.
  destruct (span is_digit_or_comma after_dollar) as [whole after_whole]. simpl in Hwhole.
  destruct (String.eqb_spec whole EmptyString) as [|Hne]; [done|].
  set (dotted := match after_whole with EmptyString => _ | String _ _ => _ end).
  assert (Hdot : dotted.1 = EmptyString ∨ dotted.1 = ".").
  { subst dotted. destruct after_whole as [|c r]; [by left|].
    destruct (Ascii.eqb c "."); [by right|by left]. }
  destruct dotted as [dot after_dot]. simpl in Hdot.
  intros [= <-]. exists whole, dot, (span is_digit after_dot).1.
  repeat split; try done. apply span_taken.
Qed.

(** X12. The group that the pattern of the total captures is never empty:
    it begins with a digit or a comma, holds only digits, commas and dots,
    and at most one dot. *)
Theorem X12_total_group_shape (content group : string) :
  totalMatch content = Some group →
  (∃ c rest, group = String c rest ∧ is_digit_or_comma c = true) ∧
  Forall (λ c, is_digit_or_comma c = true ∨ c = "."%char) (chars group) ∧
  occurrences "." group ≤ 1.
Proof.
  intros [s Hat]%totalMatch_found.
  destruct (totalAt_shape _ _ Hat) as (whole & dot & fraction & -> & Hne & Hw & Hdot & Hf).
  split; [|split].
  - destruct whole as [|c whole]; [done|]. exists c, (whole +:+ dot +:+ fraction).
    split; [done|]. by apply Forall_cons in Hw as [? _].
  - rewrite !chars_app. apply Forall_app. split; [|apply Forall_app; split].
    + eapply Forall_impl; [exact Hw|]. by left.
    + destruct Hdot as [->| ->]; simpl; [constructor|].
      constructor; [by right|constructor].
    + eapply Forall_impl; [exact Hf|]. intros c Hc. left.
      unfold is_digit_or_comma. by rewrite Hc.
  - rewrite !occurrences_app.
    rewrite (occurrences_none is_digit_or_comma "." whole eq_refl Hw).
    rewrite (occurrences_none is_digit "." fraction eq_refl Hf).
    destruct Hdot as [->| ->]; simpl; lia.
Qed.

(** X13. [replace(',', '')] takes the first comma only: the amount keeps
    every other comma of the group, and a group without comma is kept as it
    is. *)
Theorem X13_first_comma_only (s : string) :
  occurrences "," (dropFirstComma s) = occurrences "," s - 1 ∧
  (occurrences "," s = 0 → dropFirstComma s = s).
Proof.
  induction s as [|c s [IH1 IH2]]; [done|]. simpl.
  destruct (Ascii.eqb c ",") eqn:Hc; simpl.
  - split; [lia|done].
  - rewrite Hc. split; [exact IH1|]. intros H. by rewrite IH2.
Qed.

Section Generator.
Context {rt : JsRuntime}.

(** The timeline depends on the file through its lowered name, whether it
    is an image, and the text read from it. *)
Lemma steps_ext f g jitter :
  fileName f = fileName g → isImage f = isImage g → fileContent f = fileContent g →
  steps f jitter = steps g jitter.
Proof.
  intros Hn Hi Hc.
  unfold steps, extracted, verdict, amount, isStarbucks, isUber, isBar, isStaples.
  by rewrite Hn, Hi, Hc.
Qed.

(** X14. The generator does not read an image: two images of the same name
    and type give the same timeline whatever their bytes; and a file whose
    reading fails is treated as an empty one. *)
Theorem X14_images_are_not_read (name type : string) (text text' : option string)
    (jitter : nat) :
  (isImage (Some (mkFile name type text)) = true →
   steps (Some (mkFile name type text)) jitter
   = steps (Some (mkFile name type text')) jitter) ∧
  steps (Some (mkFile name type None)) jitter
  = steps (Some (mkFile name type (Some EmptyString))) jitter.
Proof.
  split.
  - intros Himage.
    assert (Himage' : isImage (Some (mkFile name type text')) = true) by exact Himage.
    apply steps_ext; [done|by rewrite Himage, Himage'|].
    by rewrite (fileContent_image _ Himage), (fileContent_image _ Himage').
  - apply steps_ext; [done..|]. unfold fileContent. simpl.
    by destruct (isImage _).
Qed.

(** X15. The verdict of the timeline is rejected exactly for a receipt of
    the bar category that is classified neither as Starbucks nor as Uber:
    the name or the text of either of these wins over alcohol. *)
Theorem X15_rejected_only_for_bar (file : option File) :
  policyResult (verdict file) = "rejected" ↔
  isStarbucks file = false ∧ isUber file = false ∧ isBar file = true.
Proof.
  unfold verdict.
  destruct (isStarbucks file), (isUber file), (isBar file), (isStaples file);
    repeat match goal with
    | |- context [if ?b then _ else _] => destruct b
    end; simpl; split; try done; intros (? & ? & ?); done.
Qed.

(** X16. A receipt of Starbucks whose amount is over 50 is flagged by the
    step of the Policy Agent, which asks for the approval of a manager, and
    yet the timeline finds no issue and ends with the verdict APPROVED: only
    the results rejected and review change the last steps. *)
Theorem X16_flagged_is_approved (file : option File) (jitter : nat) :
  isStarbucks file = true →
  number_gt (parseFloat (amount file)) (number_of_nat 50) = true →
  policyResult (verdict file) = "flagged" ∧
  steps file jitter !! 3 =
    Some (mkStep "Policy Agent" "complete"
            "⚠️ Amount exceeds meal guideline ($50 limit). Requires manager approval." 7000) ∧
  steps file jitter !! 7 =
    Some (mkStep "Remediation Agent" "complete"
            "✅ No issues found. Approved for reimbursement." 10500) ∧
  steps file jitter !! 9 =
    Some (mkStep "Synthesis Agent" "complete"
            ("🎉 **APPROVED** - All checks passed. Amount: $" +:+ amount file
             +:+ ". Confidence: " +:+ pretty (95 + jitter) +:+ "%") 13000).
Proof.
  intros Hstarbucks Hover.
  assert (Hverdict : verdict file =
    mkVerdict "Starbucks" "Meals & Refreshments" "flagged"
      "⚠️ Amount exceeds meal guideline ($50 limit). Requires manager approval.").
  { unfold verdict. by rewrite Hstarbucks, Hover. }
  unfold steps. rewrite Hverdict. by repeat split.
Qed.

End Generator.

(** ** The key of a notification *)

Lemma bar_split a a' r r' :
  occurrences "|" a = 0 → occurrences "|" a' = 0 →
  a +:+ String "|" r = a' +:+ String "|" r' → a = a' ∧ r = r'.
Proof.
  revert a'. induction a as [|c a IH]; intros [|c' a'].
  - simpl. by intros _ _ [= ->].
  - simpl. intros _ H [= <- _]. simpl in H. lia.
  - simpl. intros H _ [= -> _]. simpl in H. lia.
  - simpl. intros H H' [= -> Hrest].
    destruct (Ascii.eqb c' "|"); [lia|].
    destruct (IH a') as [-> ->]; [lia|lia|exact Hrest|done].
Qed.

(** X17. The agents and the statuses that the page logs hold no bar, and
    for such the key of the dedup identifies the notification: two
    notifications have the same key only when agent, status and message are
    the same, whatever bars the messages hold. *)
Theorem X17_key_identifies_notification (a s m a' s' m' : string) :
  occurrences "|" a = 0 → occurrences "|" s = 0 →
  occurrences "|" a' = 0 → occurrences "|" s' = 0 →
  update_key a s m = update_key a' s' m' → a = a' ∧ s = s' ∧ m = m'.
Proof.
  intros Ha Hs Ha' Hs'. unfold update_key. simpl. intros H.
  destruct (bar_split _ _ _ _ Ha Ha' H) as [-> H2].
  by destruct (bar_split _ _ _ _ Hs Hs' H2) as [-> ->].
Qed.

(** ** The timeline of the fallback *)

(** Steps of distinct stages, whose agents and statuses hold no bar, have
    distinct keys whatever their messages. *)
Lemma stepKeys_distinct ss :
  NoDup (stage <$> ss) →
  Forall (λ s, occurrences "|" (step_agent s) = 0 ∧ occurrences "|" (step_status s) = 0) ss →
  NoDup (stepKey <$> ss).
Proof.
  induction ss as [|s ss IH]; [constructor|].
  rewrite !fmap_cons, !NoDup_cons. intros [Hnew Hnd] [[Ha Hs] Hfree]%Forall_cons.
  split; [|by apply IH].
  intros (s' & Hkey & Hin)%list_elem_of_fmap. apply Hnew.
  apply list_elem_of_fmap. exists s'. split; [|exact Hin].
  rewrite Forall_forall in Hfree. destruct (Hfree s' Hin) as [Ha' Hs'].
  unfold stepKey, update_key in Hkey. simpl in Hkey.
  destruct (bar_split _ _ _ _ Ha Ha' Hkey) as [Hagent Hrest].
  destruct (bar_split _ _ _ _ Hs Hs' Hrest) as [Hstatus _].
  unfold stage. by rewrite Hagent, Hstatus.
Qed.

Section Timeline.
Context {rt : JsRuntime}.

(** The timers of steps with distinct keys, none of them logged, fire in
    the order in which they were armed: each logs its notification. *)
Lemma timeline_fires ss : ∀ nows st pending,
  timers st = pending ++ stepTimers ss → length nows = length ss →
  NoDup (stepKey <$> ss) →
  Forall (λ s, stepKey s ∉ emittedUpdatesRef st) ss →
  let st' := run ((λ now, (now, TimerFires (length pending) 0)) <$> nows) st in
  updates st' = updates st ++ zip_with stepUpdate ss nows ∧
  timers st' = pending ∧
  loading st' = (if existsb isVerdict ss then false else loading st) ∧
  file st' = file st.
Proof.
  induction ss as [|s ss IH]; intros [|now nows] st pending Htimers Hlen Hnd Hfresh;
    try discriminate.
  - simpl. unfold stepTimers in Htimers. simpl in Htimers.
    rewrite !app_nil_r in *. by repeat split.
  - injection Hlen as Hlen. rewrite fmap_cons in Hnd.
    apply NoDup_cons in Hnd as [Hnew Hnd].
    apply Forall_cons in Hfresh as [Hs Hfresh].
    change (run ((λ now, (now, TimerFires (length pending) 0)) <$> now :: nows) st)
      with (run ((λ now, (now, TimerFires (length pending) 0)) <$> nows)
              (step st (now, TimerFires (length pending) 0))).
    set (st0 := setTimers (pending ++ stepTimers ss) st).
    assert (Hstep : step st (now, TimerFires (length pending) 0) = runStep now s st0).
    { unfold step. rewrite Htimers. unfold stepTimers. rewrite fmap_cons.
      rewrite list_lookup_middle by reflexivity. by rewrite delete_middle. }
    rewrite Hstep.
    destruct (pushUpdate_fresh now (step_agent s) (step_status s) (step_message s) st0 Hs)
      as [Hu He].
    set (st1 := runStep now s st0).
    destruct (runStep_frame now s st0) as (Hf1 & _ & _ & _ & Ht1). fold st1 in Hf1, Ht1.
    assert (Hu1 : updates st1 = updates st ++ [stepUpdate s now]).
    { subst st1. unfold runStep. destruct (_ && _); exact Hu. }
    assert (He1 : emittedUpdatesRef st1 = {[stepKey s]} ∪ emittedUpdatesRef st).
    { subst st1. unfold runStep. destruct (_ && _); exact He. }
    assert (Hl1 : loading st1 = if isVerdict s then false else loading st).
    { subst st1. unfold runStep, isVerdict. destruct (_ && _); [reflexivity|].
      rewrite pushUpdate_loading. reflexivity. }
    destruct (IH nows st1 pending) as (Hu' & Ht' & Hl' & Hf'); [exact Ht1|exact Hlen|exact Hnd| |].
    { rewrite Forall_forall in Hfresh. apply Forall_forall. intros s' Hin.
      rewrite He1. apply key_not_in_singleton; [|by apply Hfresh].
      intros Hsame. apply Hnew. apply list_elem_of_fmap. by exists s'. }
    cbv zeta in Hu', Ht', Hl', Hf'. cbv zeta.
    rewrite Hu', Hu1, Ht', Hl', Hl1, Hf', Hf1, <- app_assoc.
    repeat split. simpl. by destruct (isVerdict s), (existsb isVerdict ss).
Qed.

(** C6, amended. The generator emits ten steps, the nine the
    specification lists and, before the last, the Synthesis Agent in
    processing; each is armed as a timer at its fixed delay, between 1 and 13
    seconds, and only the last one, synthesis complete, turns [loading] off.
    When the ten timers fire in the order of their delays, on a log that
    holds none of the ten notifications, the log grows by exactly these ten,
    each the agent, the status and the message of its step at the time its
    timer fired, and [loading] is off at the end. *)
Theorem C6_timeline (receipt : option File) (jitter : nat) :
  (λ s, (step_agent s, step_status s, delay s)) <$> steps receipt jitter = codedTimeline ∧
  Forall (λ s, (1000 ≤ delay s ≤ 13000)%N) (steps receipt jitter) ∧
  (∀ st, timers (simulateAgentUpdates jitter st) =
           timers st ++ ((λ s, mkTimer (delay s) (RunStep s)) <$> steps (file st) jitter)) ∧
  (∀ now st i s, steps receipt jitter !! i = Some s →
     loading (runStep now s st) = if bool_decide (i = 9) then false else loading st) ∧
  (∀ st nows, file st = receipt → length nows = 10 →
     Forall (λ s, stepKey s ∉ emittedUpdatesRef st) (steps receipt jitter) →
     let st' :=
       run ((λ now, (now, TimerFires (length (timers st)) 0)) <$> nows)
         (simulateAgentUpdates jitter st) in
     updates st' = updates st ++ zip_with stepUpdate (steps receipt jitter) nows ∧
     loading st' = false ∧ timers st' = timers st).
Proof.
  split; [reflexivity|]. split.
  { unfold steps. repeat constructor; simpl; lia. }
  split.
  { intros st. unfold simulateAgentUpdates, steps. simpl.
    unfold setTimeout. simpl. by rewrite <- !app_assoc. }
  split.
  { intros now st i s Hs. unfold steps in Hs.
    do 10 (destruct i as [|i];
      [injection Hs as <-; unfold runStep; simpl; by autorewrite with push|]).
    discriminate. }
  intros st nows Hfile Hlen Hfresh.
  destruct (simulateAgentUpdates_frame jitter st) as (_ & Hl0 & Hu0 & He0 & _).
  destruct (timeline_fires (steps receipt jitter) nows (simulateAgentUpdates jitter st)
              (timers st)) as (Hu & Ht & Hl & _).
  - by rewrite simulateAgentUpdates_timers, Hfile.
  - exact Hlen.
  - apply stepKeys_distinct.
    + assert (Hstages : stage <$> steps receipt jitter =
        [ ("Extraction Agent", "processing"); ("Extraction Agent", "complete");
          ("Policy Agent", "processing"); ("Policy Agent", "complete");
          ("Anomaly Agent", "processing"); ("Anomaly Agent", "complete");
          ("Remediation Agent", "processing"); ("Remediation Agent", "complete");
          ("Synthesis Agent", "processing"); ("Synthesis Agent", "complete") ])
        by reflexivity.
      rewrite Hstages. apply (bool_decide_unpack _). vm_compute. exact I.
    + unfold steps. repeat (apply Forall_cons; split; [split; reflexivity|]).
      apply Forall_nil_2.
  - by rewrite He0.
  - cbv zeta in Hu, Ht, Hl. cbv zeta. rewrite Hu, Ht, Hl, Hu0.
    assert (Hlast : existsb isVerdict (steps receipt jitter) = true) by reflexivity.
    by rewrite Hlast.
Qed.

End Timeline.

(** ** The submission and the page around it *)

Section Submit.
Context {rt : JsRuntime}.

(** X18. A submission whose upload succeeds starts clean whatever the page
    held before: the log is the notice of the upload and the receipt of the
    id, no error is shown, no mode is fixed, the stream is open and the
    watchdog is armed after the timers that were pending. *)
Theorem X18_submit_starts_clean (prev : State) (f : File) (now1 now2 id : string) :
  file prev = Some f →
  let st := handleSubmit now1 now2 (Uploaded id) prev in
  updates st =
    [ mkUpdate "System" "processing" "Uploading receipt to Cloud Storage..." now1;
      mkUpdate "Orchestrator" "complete"
        ("✅ Receipt uploaded! Expense ID: " +:+ substring id 0 8 +:+ "...") now2 ] ∧
  error st = None ∧ expenseId st = Some id ∧ loading st = true ∧
  mode st = NoMode ∧ demoModeRef st = false ∧ eventSource st = Open ∧
  timers st = timers prev ++ [mkTimer 30000 Watchdog].
Proof.
  intros Hfile st. subst st. unfold handleSubmit. rewrite Hfile.
  set (st1 := pushUpdate now1 "System" "processing"
                "Uploading receipt to Cloud Storage..." (resetForUpload prev)).
  destruct (pushUpdate_fresh now1 "System" "processing"
              "Uploading receipt to Cloud Storage..." (resetForUpload prev)) as [Hu1 He1].
  { simpl. apply not_elem_of_empty. }
  fold st1 in Hu1, He1.
  set (st2 := setExpenseId (Some id) st1).
  set (message := "✅ Receipt uploaded! Expense ID: " +:+ substring id 0 8 +:+ "...").
  destruct (pushUpdate_fresh now2 "Orchestrator" "complete" message st2) as [Hu2 _].
  { change (emittedUpdatesRef st2) with (emittedUpdatesRef st1). rewrite He1.
    apply key_not_in_singleton; [|apply not_elem_of_empty].
    unfold update_key. simpl. discriminate. }
  set (st3 := pushUpdate now2 "Orchestrator" "complete" message st2) in *.
  assert (Hframe : error st3 = None ∧ expenseId st3 = Some id ∧ loading st3 = true ∧
                   hasRealUpdatesRef st3 = false ∧ demoModeRef st3 = false ∧
                   timers st3 = timers prev).
  { subst st3. autorewrite with push. subst st2.
    cbn [setExpenseId error expenseId loading hasRealUpdatesRef demoModeRef timers].
    subst st1. autorewrite with push. by repeat split. }
  destruct Hframe as (Herror & Hid & Hloading & Hreal & Hdemo & Htimers).
  destruct (startRealTimeStream_frame st3) as (_ & Hl & He & Hr & Hd & Ht & _).
  unfold mode. rewrite Hl, He, Hr, Hd, Ht, Hloading, Hreal, Hdemo, Htimers.
  change (updates (startRealTimeStream st3)) with (updates st3).
  change (error (startRealTimeStream st3)) with (error st3).
  change (expenseId (startRealTimeStream st3)) with (expenseId st3).
  rewrite Hu2, Herror, Hid.
  change (updates st2) with (updates st1). rewrite Hu1.
  by repeat split.
Qed.

(** X19. After an upload that failed the page is back to Ready for
    Analysis with the submit button enabled: the panel of the activity is
    hidden, so the two notifications that the log holds, the error among
    them, are not shown; the failure is told by [error] alone. *)
Theorem X19_failed_upload_page (prev : State) (f : File) (now1 now2 : string)
    (upload : Upload) :
  file prev = Some f → (∀ id, upload ≠ Uploaded id) →
  let st := handleSubmit now1 now2 upload prev in
  showsActivity st = false ∧ showsReady st = true ∧ showsComplete st = false ∧
  submitDisabled st = false ∧ length (updates st) = 2 ∧
  error st = Some match upload with
                  | UploadThrew thrown => default "Upload failed" thrown
                  | UploadNotOk statusText => "Upload failed: " +:+ statusText
                  | Uploaded _ => EmptyString
                  end.
Proof.
  intros Hfile Hfail st. subst st. unfold handleSubmit. rewrite Hfile.
  assert (Hpage : ∀ thrown,
    let st := uploadFailed now2 thrown
      (pushUpdate now1 "System" "processing" "Uploading receipt to Cloud Storage..."
         (resetForUpload prev)) in
    showsActivity st = false ∧ showsReady st = true ∧ showsComplete st = false ∧
    submitDisabled st = false ∧ length (updates st) = 2 ∧
    error st = Some (default "Upload failed" thrown)).
  { intros thrown st.
    destruct (uploadFailed_spec now1 now2 thrown prev) as (Hu & Hl & He & Hi & _).
    fold st in Hu, Hl, He, Hi.
    assert (Hf : file st = Some f).
    { subst st. unfold uploadFailed. cbn [setLoading file]. autorewrite with push.
      cbn [setError file]. autorewrite with push. exact Hfile. }
    unfold showsActivity, showsReady, showsComplete, submitDisabled, hasExpenseId.
    rewrite Hu, Hl, He, Hi, Hf. by repeat split. }
  destruct upload as [thrown|statusText|id]; [apply Hpage|apply Hpage|].
  by destruct (Hfail id).
Qed.


End Submit.

(** ** An EXTRACTED frame without the fields of the extraction *)

Section Defaults.
Context {rt : JsRuntime}.

(** X21. An EXTRACTED frame whose extraction names no merchant and no
    category, and whose [total_amount] is neither a number nor a string, is
    logged with the merchant Unknown, the category General and the amount
    0.00, on a platform where NaN is not finite. *)
Theorem X21_extracted_defaults (now : string) (data : jsval) (st : State) :
  isFinite NaN = false →
  stageFrame "EXTRACTED" data →
  let extraction := prop "extraction" (findingsOf data) in
  truthy extraction = true →
  nullish (prop "merchant" extraction) = true →
  nullish (prop "category" extraction) = true →
  (∀ n, prop "total_amount" extraction ≠ VNum n) →
  (∀ s, prop "total_amount" extraction ≠ VStr s) →
  onmessage now data st =
    pushUpdate now "Extraction Agent" "complete"
      ("✅ Vision analysis complete: Merchant=" +:+ dquote +:+ "Unknown" +:+ dquote
       +:+ ", Amount=$0.00, Category=" +:+ dquote +:+ "General" +:+ dquote)
      (markRealUpdate st).
Proof.
  intros Hnan Hframe extraction Hfound Hmerchant Hcategory Hnum Hstr.
  assert (Hamount : formatCurrency (prop "total_amount" extraction) = "0.00").
  { unfold formatCurrency.
    destruct (prop "total_amount" extraction) as [| | |n|s| |] eqn:Hv;
      try (by rewrite Hnan); [by destruct (Hnum n)|by destruct (Hstr s)]. }
  assert (Hmessage : extractedMessage extraction =
    Some ("✅ Vision analysis complete: Merchant=" +:+ dquote +:+ "Unknown" +:+ dquote
          +:+ ", Amount=$0.00, Category=" +:+ dquote +:+ "General" +:+ dquote)).
  { unfold extractedMessage, coalesce. by rewrite Hmerchant, Hcategory, Hamount. }
  unfold onmessage. rewrite (stageFrame_get _ _ Hframe).
  destruct Hframe as [-> ->]. simpl. unfold stageWithFindings.
  fold extraction. by rewrite Hfound, Hmessage.
Qed.

End Defaults.

(** ** Verdicts with a summary, and anomalies *)

Section Findings.
Context {rt : JsRuntime}.

Lemma handleFinalStatus_summary now finalStatus doc st summary :
  opt_get "summary" (opt_get "synthesis" (opt_get "findings" doc)) = VStr summary →
  summary ≠ EmptyString →
  handleFinalStatus now finalStatus doc st =
    close (setLoading false
      (pushUpdate now "Synthesis Agent" "complete" ("🎉 " +:+ summary) (markRealUpdate st))).
Proof.
  intros Hsummary Hne. unfold handleFinalStatus. rewrite Hsummary. simpl.
  destruct (String.eqb_spec summary EmptyString) as [Hempty|_]; [by destruct Hne|].
  reflexivity.
Qed.

(** X23. When the synthesis of a verdict frame holds a summary, a string
    that is not empty, the verdict is logged as that summary after the
    party emoji whatever the status is: a REJECTED or FAILED verdict is shown
    like an APPROVED one, and the text of the status is not shown. *)
Theorem X23_summary_hides_status (now : string) (data : jsval) (st : State)
    (code summary : string) :
  truthy (opt_get "error" data) = false →
  opt_get "summary" (opt_get "synthesis" (opt_get "findings" data)) = VStr summary →
  summary ≠ EmptyString →
  (opt_get "status" data = VStr code ∧
   code ∈ ["APPROVED"; "REJECTED"; "NEEDS_REVIEW"; "FAILED"]) ∨
  (opt_get "status" data = VStr "DONE" ∧ truthy (prop "finalStatus" data) = true) →
  onmessage now data st =
    close (setLoading false
      (pushUpdate now "Synthesis Agent" "complete" ("🎉 " +:+ summary) (markRealUpdate st))).
Proof.
  intros Herror Hsummary Hne Hstatus. unfold onmessage.
  destruct Hstatus as [[Hs Hin]|[Hs Hfinal]]; rewrite (get_status _ _ Hs), Hs, Herror.
  - assert (Hcases : code = "APPROVED" ∨ code = "REJECTED" ∨ code = "NEEDS_REVIEW"
                     ∨ code = "FAILED").
    { rewrite !elem_of_cons, elem_of_nil in Hin. tauto. }
    destruct Hcases as [->|[->|[->| ->]]]; simpl;
      by apply handleFinalStatus_summary.
  - simpl. rewrite Hfinal. by apply handleFinalStatus_summary.
Qed.

(** X24. An ANOMALY_CHECKED frame that reports anomalies without listing
    any, and without a risk level, is logged as potential anomalies of
    unknown risk.  When its [anomalies] are there but are not an array the
    frame marks the session live and logs nothing: [join] is not a function
    and the [catch] swallows the error. *)
Theorem X24_anomalies_not_listed (now : string) (data : jsval) (st : State) :
  stageFrame "ANOMALY_CHECKED" data →
  let anomaly := prop "anomaly" (findingsOf data) in
  truthy anomaly = true →
  truthy (prop "anomalies_detected" anomaly) = true →
  (nullish (prop "risk_level" anomaly) = true →
   nullish (prop "anomalies" anomaly) = true ∨ prop "anomalies" anomaly = VArr [] →
   onmessage now data st =
     pushUpdate now "Anomaly Agent" "complete"
       "⚠️ Potential anomalies detected. (risk: unknown)" (markRealUpdate st)) ∧
  (nullish (prop "anomalies" anomaly) = false →
   (∀ items, prop "anomalies" anomaly ≠ VArr items) →
   onmessage now data st = markRealUpdate st).
Proof.
  intros Hframe anomaly Hfound Hdetected.
  assert (Hrun : onmessage now data st =
    match anomalyCheckedMessage anomaly with
    | Some message => pushUpdate now "Anomaly Agent" "complete" message (markRealUpdate st)
    | None => markRealUpdate st
    end).
  { unfold onmessage. rewrite (stageFrame_get _ _ Hframe).
    destruct Hframe as [-> ->]. simpl. unfold stageWithFindings.
    fold anomaly. by rewrite Hfound. }
  rewrite Hrun. unfold anomalyCheckedMessage. rewrite Hdetected. split.
  - intros Hrisk Hnone. unfold coalesce. rewrite Hrisk.
    destruct Hnone as [Hnull| ->]; [|reflexivity].
    by destruct (prop "anomalies" anomaly).
  - intros Hthere Hshape.
    destruct (prop "anomalies" anomaly) as [| | | | |items|]; try done.
    by destruct (Hshape items).
Qed.

End Findings.

(** ** The fallback after a stream that failed *)

Section FailedStream.
Context {rt : JsRuntime}.

Lemma step_fires_second now jitter w t ts st :
  timers st = w :: t :: ts →
  step st (now, TimerFires 1 jitter)
  = runCallback now jitter (callback t) (setTimers (w :: ts) st).
Proof. intros Ht. unfold step. by rewrite Ht. Qed.

Lemma failed_stream_starts_fallback now start w st :
  eventSource st = Open → hasRealUpdatesRef st = false → demoModeRef st = false →
  timers st = [w] → noVerdict st →
  start = StreamError ∨
  (∃ data, start = Message (Some data) ∧
           is_string "TIMEOUT" (opt_get "status" data) = true) →
  let st' := step st (now, start) in
  fallbackRunning [w] [mkTimer 500 SimulateAgentUpdates] st' ∧
  file st' = file st ∧ eventSource st' = Closed.
Proof.
  intros Hopen Hr Hd Htimers Hno Hstart st'. subst st'.
  destruct Hstart as [->|(data & -> & Htimeout)]; unfold step; rewrite Hopen.
  - unfold onerror. rewrite Hr. unfold triggerDemoMode. simpl. rewrite Hr, Hd. simpl.
    unfold fallbackRunning. simpl. autorewrite with push. simpl. rewrite Htimers.
    repeat split; try done. intros k. simpl. by apply noVerdict_push.
  - unfold onmessage. rewrite Htimeout, Hr. simpl.
    unfold triggerDemoMode. rewrite Hr, Hd. simpl.
    unfold fallbackRunning. simpl. autorewrite with push. simpl. rewrite Htimers.
    repeat split; try done. intros k. simpl. by apply noVerdict_push.
Qed.

Lemma fallback_arms_steps now jitter w st :
  fallbackRunning [w] [mkTimer 500 SimulateAgentUpdates] st →
  let st' := step st (now, TimerFires 1 jitter) in
  fallbackRunning [w] (stepTimers (steps (file st) jitter)) st' ∧
  file st' = file st ∧ eventSource st' = eventSource st.
Proof.
  intros (Htimers & Hno & Hd & Hr) st'. subst st'. simpl in Htimers.
  rewrite (step_fires_second _ _ _ _ _ _ Htimers). cbn [runCallback callback].
  set (st1 := setTimers [w] st).
  destruct (simulateAgentUpdates_frame jitter st1) as (Hf & _ & _ & He & Hd' & Hr' & Hs).
  unfold fallbackRunning, noVerdict. rewrite simulateAgentUpdates_timers, Hf, Hd', Hr', He, Hs.
  by repeat split.
Qed.

Lemma fallback_step_fires now jitter w d s ts st :
  fallbackRunning [w] (mkTimer d (RunStep s) :: ts) st →
  verdictKey (update_key (step_agent s) (step_status s) (step_message s)) = false →
  let st' := step st (now, TimerFires 1 jitter) in
  fallbackRunning [w] ts st' ∧ eventSource st' = eventSource st.
Proof.
  intros (Htimers & Hno & Hd & Hr) Hkey st'. subst st'. simpl in Htimers.
  rewrite (step_fires_second _ _ _ _ _ _ Htimers). cbn [runCallback callback].
  set (st1 := setTimers (w :: ts) st).
  destruct (runStep_frame now s st1) as (_ & Hd' & Hr' & He' & Ht').
  unfold fallbackRunning. rewrite Hd', Hr', Ht', He'. repeat split; try done.
  unfold runStep. intros k.
  destruct (_ && _); simpl; by apply noVerdict_push.
Qed.

Lemma fallback_verdict_fires now jitter w d message d' st :
  fallbackRunning [w]
    [mkTimer d (RunStep (mkStep "Synthesis Agent" "complete" message d'))] st →
  let st' := step st (now, TimerFires 1 jitter) in
  updates st' = updates st ++ [mkUpdate "Synthesis Agent" "complete" message now] ∧
  loading st' = false ∧ timers st' = [w] ∧ mode st' = Demo ∧
  eventSource st' = eventSource st.
Proof.
  intros (Htimers & Hno & Hd & Hr) st'. subst st'. simpl in Htimers.
  rewrite (step_fires_second _ _ _ _ _ _ Htimers). cbn [runCallback callback].
  unfold runStep. simpl.
  destruct (pushUpdate_fresh now "Synthesis Agent" "complete" message (setTimers [w] st))
    as [Hu _].
  { intros Hin. specialize (Hno _ Hin). cbv in Hno. discriminate. }
  rewrite Hu. unfold mode. simpl. autorewrite with push. simpl. by rewrite Hr, Hd.
Qed.

Lemma watchdog_after_close now jitter st :
  timers st = [mkTimer 30000 Watchdog] → eventSource st = Closed →
  step st (now, TimerFires 0 jitter) = setTimers [] st.
Proof.
  intros Ht He. unfold step. rewrite Ht. simpl. unfold watchdog. simpl. by rewrite He.
Qed.

(** X22. When the stream of a session fails before any live update, by an
    error of the connection or by a TIMEOUT frame, the fallback takes over
    at once, without waiting for the watchdog: once its timers have fired
    the log ends with the verdict of the Synthesis Agent, [loading] is off
    and the session is in demo mode.  The watchdog is still pending, and
    when it fires it finds the stream closed and changes nothing on the
    page. *)
Theorem X22_failed_stream_runs_fallback (prev : State) (f : File)
    (now1 now2 id : string) (start : Event) (nowStart nowSimulation : string)
    (jitter : nat) (nows : list string) :
  file prev = Some f → timers prev = [] →
  start = StreamError ∨
  (∃ data, start = Message (Some data) ∧
           is_string "TIMEOUT" (opt_get "status" data) = true) →
  length nows = 10 →
  let st :=
    run ((nowStart, start) :: (nowSimulation, TimerFires 1 jitter)
         :: ((λ now, (now, TimerFires 1 0)) <$> nows))
      (handleSubmit now1 now2 (Uploaded id) prev) in
  (∃ u, last (updates st) = Some u ∧ terminal u = true ∧
        agent u = "Synthesis Agent" ∧ status u = "complete") ∧
  loading st = false ∧ mode st = Demo ∧ eventSource st = Closed ∧
  timers st = [mkTimer 30000 Watchdog] ∧
  ∀ now j, step st (now, TimerFires 0 j) = setTimers [] st.
Proof.
  intros Hfile Htimers Hstart Hlen.
  destruct (handleSubmit_uploaded prev f now1 now2 id Hfile Htimers)
    as (Hf0 & _ & Hopen & Hr0 & Hd0 & Ht0 & Hno0).
  set (st0 := handleSubmit now1 now2 (Uploaded id) prev) in *.
  do 10 (destruct nows as [|? nows]; [discriminate|]).
  destruct nows; [|discriminate]. clear Hlen.
  intros st. subst st. unfold run. cbn [fmap list_fmap foldl].
  destruct (failed_stream_starts_fallback nowStart start _ st0 Hopen Hr0 Hd0 Ht0 Hno0 Hstart)
    as (Hrun & Hf1 & Hclosed).
  set (st1 := step st0 (nowStart, start)) in *.
  destruct (fallback_arms_steps nowSimulation jitter _ st1 Hrun) as (Hsteps & _ & He2).
  set (st2 := step st1 (nowSimulation, TimerFires 1 jitter)) in *.
  rewrite Hf1, Hf0 in Hsteps. rewrite Hclosed in He2.
  unfold steps, stepTimers in Hsteps. cbn [fmap list_fmap delay] in Hsteps.
  do 9 (match goal with
        | H : fallbackRunning _ (_ :: _ :: _) ?s, He : eventSource ?s = Closed
          |- context [step ?s (?n, TimerFires 1 0)] =>
            let He' := fresh "He" in
            destruct (fallback_step_fires n 0 _ _ _ _ _ H eq_refl) as [? He'];
            rewrite He in He'; clear H He
        end).
  match goal with
  | H : fallbackRunning _ [_] ?s, He : eventSource ?s = Closed
    |- context [step ?s (?n, TimerFires 1 0)] =>
      destruct (fallback_verdict_fires n 0 _ _ _ _ _ H) as (Hu & Hl & Ht & Hm & He');
      rewrite He in He'
  end.
  split; [eexists; rewrite Hu, last_snoc; by repeat split|].
  split; [exact Hl|]. split; [exact Hm|]. split; [exact He'|]. split; [exact Ht|].
  intros now j. by apply watchdog_after_close.
Qed.

End FailedStream.

(** ** The theorems at work

    The amended statements applied to inputs, and the inputs on which the
    statements of the specification fail, evaluated with the runtime
    [Cents.runtime]. *)

#[local] Existing Instance Cents.runtime.

(** The theorem applied: an upload answered with status 500. *)
Lemma C9_upload_failure_witness :
  let st :=
    handleSubmit (rt := Cents.runtime) "09:00:00" "09:00:01"
      (UploadNotOk "Internal Server Error")
      (Examples.page (Examples.textFile "receipt.txt" "Total: $12.00")) in
  loading st = false ∧ length (updates st) = 2 ∧ eventSource st = NotOpened.
Proof.
  destruct (C9_upload_failure (rt := Cents.runtime)
              (Examples.page (Examples.textFile "receipt.txt" "Total: $12.00"))
              (mkFile "receipt.txt" "text/plain" (Some "Total: $12.00"))
              "09:00:00" "09:00:01" (UploadNotOk "Internal Server Error"))
    as (Hl & _ & _ & [m Hu] & _ & Hs & _).
  - reflexivity.
  - intros id. discriminate.
  - cbv zeta. rewrite Hl, Hu, Hs. repeat split.
Defined.

(** The theorem applied: the same notification pushed at two times. *)
Lemma C4_dedup_idempotent_witness :
  let st :=
    appendAll
      [ mkAppend "09:00:00" "Policy Agent" "complete" "ok";
        mkAppend "09:00:05" "Policy Agent" "complete" "ok" ]
      (resetForUpload (Examples.page None)) in
  ("Policy Agent", "complete", "ok") ∈ (triple <$> updates st) ∧
  pushUpdate "09:00:09" "Policy Agent" "complete" "ok" st = st.
Proof.
  pose proof (C4_dedup_idempotent (Examples.page None)
    [ mkAppend "09:00:00" "Policy Agent" "complete" "ok";
      mkAppend "09:00:05" "Policy Agent" "complete" "ok" ]) as [_ H].
  assert (Hin : ("Policy Agent", "complete", "ok") ∈
    (triple <$> updates (appendAll
      [ mkAppend "09:00:00" "Policy Agent" "complete" "ok";
        mkAppend "09:00:05" "Policy Agent" "complete" "ok" ]
      (resetForUpload (Examples.page None))))).
  { vm_compute. apply list_elem_of_here. }
  split; [exact Hin|]. exact (H "09:00:09" _ _ _ Hin).
Defined.



(** The theorem applied: an EXTRACTED frame without findings. *)
Lemma C10_stage_without_findings_ignored_witness :
  findingsKey "EXTRACTED" = Some "extraction" ∧
  stageFrame (rt := Cents.runtime) "EXTRACTED" (Examples.frame "EXTRACTED") ∧
  onmessage (rt := Cents.runtime) "09:00:02" (Examples.frame "EXTRACTED")
    (Examples.streaming (Examples.imageFile "receipt.jpg"))
  = Examples.streaming (Examples.imageFile "receipt.jpg").
Proof.
  assert (H : stageFrame (rt := Cents.runtime) "EXTRACTED" (Examples.frame "EXTRACTED"))
    by (split; reflexivity).
  split; [reflexivity|]. split; [exact H|].
  apply (C10_stage_without_findings_ignored (rt := Cents.runtime)
           "09:00:02" "EXTRACTED" "extraction"); [reflexivity|exact H|reflexivity].
Defined.

(** C10 as stated fails: a frame with status EXTRACTED, no findings and an
    [error] field is not ignored; it logs an error and closes the stream. *)
Lemma C10_counterexample :
  let st := Examples.streaming (Examples.imageFile "receipt.jpg") in
  let st' := step (rt := Cents.runtime) st
               ("09:00:02", Message (Some (Examples.failedFrame "EXTRACTED"))) in
  prop "extraction" (findingsOf (Examples.failedFrame "EXTRACTED")) = VUndefined ∧
  updates st' = updates st ++ [mkUpdate "System" "error" "❌ boom" "09:00:02"] ∧
  eventSource st' = Closed.
Proof. vm_compute. repeat split. Qed.

(** C6 as stated fails: the timeline of a receipt has ten steps, and its
    stages are not the nine listed. *)
Lemma C6_counterexample :
  let timeline :=
    steps (rt := Cents.runtime) (Examples.imageFile "receipt-starbucks.jpg") 3 in
  length timeline = 10 ∧ stage <$> timeline ≠ listedTimeline ∧
  timeline !! 8 = Some (mkStep "Synthesis Agent" "processing"
    "📊 Aggregating findings and generating final verdict..." 11000).
Proof. vm_compute. repeat split. discriminate. Qed.

(** C7 as stated fails: a text file of no category and without a total
    gets the amount 0.00, not 45.00. *)
Lemma C7_counterexample :
  let receipt := Examples.textFile "notes.txt" "Lunch with the team" in
  isImage (rt := Cents.runtime) receipt = false ∧
  (isStarbucks receipt || isUber receipt || isBar receipt || isStaples receipt) = false ∧
  totalMatch (fileContent receipt) = None ∧
  amount receipt = "0.00" ∧ amount receipt ≠ "45.00".
Proof. vm_compute. repeat split. discriminate. Qed.

(** The theorem applied: a text receipt without a total. *)
Lemma C7_amount_witness :
  let receipt := Examples.textFile "notes.txt" "Lunch with the team" in
  isImage (rt := Cents.runtime) receipt = false ∧
  totalMatch (fileContent receipt) = None ∧
  amount receipt = "0.00".
Proof.
  split; [reflexivity|]. split; [reflexivity|].
  apply (C7_amount (rt := Cents.runtime)); reflexivity.
Defined.

(** C8 as stated fails: a receipt of Starbucks that holds the total and the
    word WINE is classified as Starbucks and sent to review; and on a receipt
    that is rejected the verdict of the Synthesis Agent does not name
    alcohol. *)
Lemma C8_counterexample :
  let coffee := Examples.textFile "receipt.txt" "Starbucks Total: $42.10 WINE" in
  let wine := Examples.textFile "receipt.txt" "Total: $42.10 WINE" in
  includes "Total: $42.10" (fileContent (rt := Cents.runtime) coffee) = true ∧
  includes "WINE" (fileContent coffee) = true ∧
  merchant (verdict coffee) = "Starbucks" ∧
  policyResult (verdict coffee) = "review" ∧
  step_message <$> last (steps coffee 0) =
    Some "⚠️ **NEEDS REVIEW** - Additional documentation required. Amount: $42.10." ∧
  (∃ m, step_message <$> last (steps wine 0) = Some m ∧
        includes "lcohol" m = false ∧ includes "LCOHOL" m = false).
Proof.
  vm_compute. repeat split. eexists. repeat split.
Qed.

(** The theorem applied: a bar receipt in a text file. *)
Lemma C8_wine_receipt_witness :
  let f := mkFile "receipt.txt" "text/plain"
             (Some ("2 x RED WINE 21.05 " +:+ "Total: $42.10" +:+ " Thank you")) in
  isImage (rt := Cents.runtime) (Some f) = false ∧
  matchesWithin "2 x RED WINE 21.05 " ("Total: $42.10" +:+ " Thank you") = false ∧
  amount (Some f) = "42.10" ∧
  merchant (verdict (Some f)) = "Bar/Restaurant".
Proof.
  split; [reflexivity|]. split; [reflexivity|].
  destruct (C8_wine_receipt (rt := Cents.runtime)
    (mkFile "receipt.txt" "text/plain"
       (Some ("2 x RED WINE 21.05 " +:+ "Total: $42.10" +:+ " Thank you")))
    "2 x RED WINE 21.05 " " Thank you" 0) as (Ha & Hm & _); try reflexivity.
  by split.
Defined.

(** The theorem applied: after a TIMEOUT frame the session is in demo mode,
    and an INGESTED frame changes nothing. *)
Lemma C1_mode_exclusive_witness :
  let prev := Examples.page (Examples.imageFile "receipt.jpg") in
  let st := run [("09:00:02", Message (Some (Examples.frame "TIMEOUT")))]
              (handleSubmit "09:00:00" "09:00:01" (Uploaded "0123456789abcdef") prev) in
  file prev = Some (mkFile "receipt.jpg" "image/jpeg" None) ∧
  Forall (λ t, fallbackTimer t = false) (timers prev) ∧
  mode st = Demo ∧
  step st ("09:00:03", Message (Some (Examples.frame "INGESTED"))) = st.
Proof.
  split; [reflexivity|]. split; [apply Forall_nil_2|].
  assert (Hdemo : mode (run [("09:00:02", Message (Some (Examples.frame "TIMEOUT")))]
    (handleSubmit "09:00:00" "09:00:01" (Uploaded "0123456789abcdef")
       (Examples.page (Examples.imageFile "receipt.jpg")))) = Demo)
    by (vm_compute; reflexivity).
  split; [exact Hdemo|].
  exact (proj1 (C1_mode_exclusive
    (Examples.page (Examples.imageFile "receipt.jpg"))
    (mkFile "receipt.jpg" "image/jpeg" None) "09:00:00" "09:00:01" "0123456789abcdef"
    [("09:00:02", Message (Some (Examples.frame "TIMEOUT")))] eq_refl (Forall_nil_2 _))
    Hdemo "09:00:03" (Some (Examples.frame "INGESTED"))).
Defined.



(** The theorem applied: after an INGESTED frame neither a stream error
    nor the watchdog starts the fallback. *)
Lemma C5_single_fallback_witness :
  let st := Examples.streaming (Examples.imageFile "receipt.jpg") in
  let ingested := ("09:00:02", Message (Some (Examples.frame "INGESTED"))) in
  let later := [("09:00:05", StreamError); ("09:00:31", TimerFires 0 0)] in
  recordsLive (run [] st) ingested = true ∧
  fallbackStarts later (step (run [] st) ingested) = 0.
Proof.
  assert (Hlive : recordsLive (run [] (Examples.streaming (Examples.imageFile "receipt.jpg")))
    ("09:00:02", Message (Some (Examples.frame "INGESTED"))) = true)
    by (vm_compute; reflexivity).
  split; [exact Hlive|].
  exact (proj2 (proj2 (C5_single_fallback
    (Examples.streaming (Examples.imageFile "receipt.jpg"))
    [ ("09:00:02", Message (Some (Examples.frame "INGESTED")));
      ("09:00:05", StreamError); ("09:00:31", TimerFires 0 0) ]))
    [] _ _ eq_refl Hlive).
Defined.

(** The theorem applied: the generator called by its timer, in a session
    whose watchdog started the fallback with [loading] on. *)
Lemma C6_timeline_witness :
  let receipt := Examples.imageFile "receipt-starbucks.jpg" in
  let demo := step (Examples.streaming receipt) ("09:00:31", TimerFires 0 0) in
  let st := setTimers [] demo in
  let nows := [ "09:00:32"; "09:00:35"; "09:00:36"; "09:00:38"; "09:00:39";
                "09:00:40"; "09:00:41"; "09:00:42"; "09:00:42"; "09:00:44" ] in
  let st' := run ((λ now, (now, TimerFires (length (timers st)) 0)) <$> nows)
               (simulateAgentUpdates 3 st) in
  step demo ("09:00:31", TimerFires 0 3) = simulateAgentUpdates 3 st ∧
  file st = receipt ∧ length nows = 10 ∧
  Forall (λ s, stepKey s ∉ emittedUpdatesRef st) (steps receipt 3) ∧
  loading st = true ∧ length (updates st) = 3 ∧
  updates st' = updates st ++ zip_with stepUpdate (steps receipt 3) nows ∧
  loading st' = false.
Proof.
  cbv zeta.
  assert (Hcalled :
    step (step (Examples.streaming (Examples.imageFile "receipt-starbucks.jpg"))
            ("09:00:31", TimerFires 0 0)) ("09:00:31", TimerFires 0 3)
    = simulateAgentUpdates 3
        (setTimers [] (step (Examples.streaming (Examples.imageFile "receipt-starbucks.jpg"))
                         ("09:00:31", TimerFires 0 0))))
    by (vm_compute; reflexivity).
  assert (Hfile :
    file (setTimers [] (step (Examples.streaming (Examples.imageFile "receipt-starbucks.jpg"))
                          ("09:00:31", TimerFires 0 0)))
    = Examples.imageFile "receipt-starbucks.jpg")
    by (vm_compute; reflexivity).
  assert (Hfresh :
    Forall (λ s, stepKey s ∉ emittedUpdatesRef
      (setTimers [] (step (Examples.streaming (Examples.imageFile "receipt-starbucks.jpg"))
                       ("09:00:31", TimerFires 0 0))))
      (steps (Examples.imageFile "receipt-starbucks.jpg") 3))
    by (apply (bool_decide_unpack _); vm_compute; exact I).
  assert (Hloading :
    loading (setTimers [] (step (Examples.streaming (Examples.imageFile "receipt-starbucks.jpg"))
                             ("09:00:31", TimerFires 0 0))) = true)
    by (vm_compute; reflexivity).
  assert (Hlogged :
    length (updates
      (setTimers [] (step (Examples.streaming (Examples.imageFile "receipt-starbucks.jpg"))
                       ("09:00:31", TimerFires 0 0)))) = 3)
    by (vm_compute; reflexivity).
  destruct (proj2 (proj2 (proj2 (proj2
    (C6_timeline (Examples.imageFile "receipt-starbucks.jpg") 3))))
    (setTimers [] (step (Examples.streaming (Examples.imageFile "receipt-starbucks.jpg"))
                     ("09:00:31", TimerFires 0 0)))
    [ "09:00:32"; "09:00:35"; "09:00:36"; "09:00:38"; "09:00:39";
      "09:00:40"; "09:00:41"; "09:00:42"; "09:00:42"; "09:00:44" ]
    Hfile eq_refl Hfresh) as (Hlog & Hoff & _).
  split; [exact Hcalled|]. split; [exact Hfile|]. split; [reflexivity|].
  split; [exact Hfresh|]. split; [exact Hloading|]. split; [exact Hlogged|].
  split; [exact Hlog|exact Hoff].
Defined.

(** ** The further facts at work *)

(** X2 applied: a session that receives the same INGESTED frame twice. *)
Lemma X2_session_log_matches_witness :
  let prev := Examples.page (Examples.imageFile "receipt.jpg") in
  file prev = Some (mkFile "receipt.jpg" "image/jpeg" None) ∧
  logMatches
    (run [ ("09:00:02", Message (Some (Examples.frame "INGESTED")));
           ("09:00:03", Message (Some (Examples.frame "INGESTED"))) ]
       (handleSubmit "09:00:00" "09:00:01" (Uploaded "0123456789abcdef") prev)).
Proof.
  split; [reflexivity|].
  exact (X2_session_log_matches (Examples.page (Examples.imageFile "receipt.jpg"))
    (mkFile "receipt.jpg" "image/jpeg" None) "09:00:00" "09:00:01"
    (Uploaded "0123456789abcdef")
    [ ("09:00:02", Message (Some (Examples.frame "INGESTED")));
      ("09:00:03", Message (Some (Examples.frame "INGESTED"))) ] eq_refl).
Defined.

(** X3 applied: after a verdict, the watchdog and an error of the stream. *)
Lemma X3_loading_stays_off_witness :
  let st := step (Examples.streaming (Examples.imageFile "receipt.jpg"))
              ("09:00:02", Message (Some (Examples.frame "APPROVED"))) in
  loading st = false ∧
  loading (run [("09:00:31", TimerFires 0 0); ("09:00:32", StreamError)] st) = false.
Proof.
  assert (Hoff : loading (step (Examples.streaming (Examples.imageFile "receipt.jpg"))
              ("09:00:02", Message (Some (Examples.frame "APPROVED")))) = false)
    by (vm_compute; reflexivity).
  split; [exact Hoff|].
  exact (X3_loading_stays_off _
    [("09:00:31", TimerFires 0 0); ("09:00:32", StreamError)] Hoff).
Defined.

(** X4 applied: after an APPROVED frame an INGESTED frame is not taken. *)
Lemma X4_completed_session_is_closed_witness :
  let prev := Examples.page (Examples.imageFile "receipt.jpg") in
  let st := run [("09:00:02", Message (Some (Examples.frame "APPROVED")))]
              (handleSubmit "09:00:00" "09:00:01" (Uploaded "0123456789abcdef") prev) in
  loading st = false ∧ eventSource st = Closed ∧
  step st ("09:00:03", Message (Some (Examples.frame "INGESTED"))) = st.
Proof.
  assert (Hoff : loading (run [("09:00:02", Message (Some (Examples.frame "APPROVED")))]
    (handleSubmit "09:00:00" "09:00:01" (Uploaded "0123456789abcdef")
       (Examples.page (Examples.imageFile "receipt.jpg")))) = false)
    by (vm_compute; reflexivity).
  destruct (X4_completed_session_is_closed
    (Examples.page (Examples.imageFile "receipt.jpg"))
    (mkFile "receipt.jpg" "image/jpeg" None) "09:00:00" "09:00:01" "0123456789abcdef"
    [("09:00:02", Message (Some (Examples.frame "APPROVED")))]
    eq_refl (Forall_nil_2 _) Hoff) as [Hclosed Hdead].
  split; [exact Hoff|]. split; [exact Hclosed|]. apply Hdead.
Defined.

(** X5 applied: a session that a TIMEOUT frame put in demo mode. *)
Lemma X5_demo_flag_exclusive_witness :
  let prev := Examples.page (Examples.imageFile "receipt.jpg") in
  let st := run [("09:00:02", Message (Some (Examples.frame "TIMEOUT")))]
              (handleSubmit "09:00:00" "09:00:01" (Uploaded "0123456789abcdef") prev) in
  demoModeRef st = true ∧ eventSource st = Closed ∧ hasRealUpdatesRef st = false.
Proof.
  assert (Hdemo : demoModeRef (run [("09:00:02", Message (Some (Examples.frame "TIMEOUT")))]
    (handleSubmit "09:00:00" "09:00:01" (Uploaded "0123456789abcdef")
       (Examples.page (Examples.imageFile "receipt.jpg")))) = true)
    by (vm_compute; reflexivity).
  split; [exact Hdemo|].
  exact (X5_demo_flag_exclusive
    (Examples.page (Examples.imageFile "receipt.jpg"))
    (mkFile "receipt.jpg" "image/jpeg" None) "09:00:00" "09:00:01" "0123456789abcdef"
    [("09:00:02", Message (Some (Examples.frame "TIMEOUT")))]
    eq_refl (Forall_nil_2 _) Hdemo).
Defined.

(** X6 applied: the page of a session that an error frame has ended. *)
Lemma X6_page_of_a_session_witness :
  let prev := Examples.page (Examples.imageFile "receipt.jpg") in
  let st := run [("09:00:02", Message (Some (Examples.failedFrame "EXTRACTED")))]
              (handleSubmit "09:00:00" "09:00:01" (Uploaded "0123456789abcdef") prev) in
  "0123456789abcdef" ≠ EmptyString ∧
  showsActivity st = true ∧ showsComplete st = negb (loading st).
Proof.
  assert (Hid : "0123456789abcdef" ≠ EmptyString) by discriminate.
  destruct (X6_page_of_a_session
    (Examples.page (Examples.imageFile "receipt.jpg"))
    (mkFile "receipt.jpg" "image/jpeg" None) "09:00:00" "09:00:01" "0123456789abcdef"
    [("09:00:02", Message (Some (Examples.failedFrame "EXTRACTED")))]
    eq_refl Hid) as (Hactivity & _ & _ & Hcomplete).
  split; [exact Hid|]. split; [exact Hactivity|exact Hcomplete].
Defined.

(** X7 applied: a FAILED frame is logged as a verdict. *)
Lemma X7_verdict_frame_witness :
  let st := Examples.streaming (Examples.imageFile "receipt.jpg") in
  onmessage "09:00:02" (Examples.frame "FAILED") st =
    close (setLoading false
      (pushUpdate "09:00:02" "Synthesis Agent" "complete" "Status: FAILED"
         (markRealUpdate st))).
Proof.
  apply (X7_verdict_frame "09:00:02" (Examples.frame "FAILED") _ "FAILED" "Status: FAILED").
  - do 3 apply list_elem_of_further. apply list_elem_of_here.
  - reflexivity.
  - reflexivity.
  - left. reflexivity.
Defined.

(** X8 applied: a frame of an unknown status, and a bare DONE frame. *)
Lemma X8_unhandled_frame_ignored_witness :
  let st := Examples.streaming (Examples.imageFile "receipt.jpg") in
  onmessage "09:00:02" (Examples.frame "HEARTBEAT") st = st ∧
  onmessage "09:00:03" (Examples.frame "DONE") st = st.
Proof.
  split.
  - apply (proj1 (X8_unhandled_frame_ignored "09:00:02" (Examples.frame "HEARTBEAT")
                    _ eq_refl)).
    unfold handledStatus. repeat (apply Forall_cons; split; [reflexivity|]).
    apply Forall_nil_2.
  - apply (proj2 (X8_unhandled_frame_ignored "09:00:03" (Examples.frame "DONE")
                    _ eq_refl)); reflexivity.
Defined.

(** X9 applied: an APPROVED frame that carries an error. *)
Lemma X9_error_frame_witness :
  let st := Examples.streaming (Examples.imageFile "receipt.jpg") in
  onmessage "09:00:02" (Examples.failedFrame "APPROVED") st =
    close (setLoading false (pushUpdate "09:00:02" "System" "error" "❌ boom" st)) ∧
  mode (onmessage "09:00:02" (Examples.failedFrame "APPROVED") st) = mode st.
Proof.
  apply (proj1 (X9_error_frame "09:00:02" (Examples.failedFrame "APPROVED")
                  (Examples.streaming (Examples.imageFile "receipt.jpg"))) "boom");
    reflexivity.
Defined.

(** X10 applied: two recommendations, the second of them [null]. *)
Lemma X10_malformed_remediation_witness :
  let data :=
    VObj [ ("status", VStr "REMEDIATION_COMPLETE");
           ("findings",
            VObj [ ("remediation",
                    VObj [ ("needs_remediation", VBool true);
                           ("recommendations",
                            VArr [VObj [("action", VStr "Ask the manager")]; VNull]) ]) ]) ] in
  let st := Examples.streaming (Examples.imageFile "receipt.jpg") in
  stageFrame "REMEDIATION_COMPLETE" data ∧
  updates (onmessage "09:00:02" data st) = updates st ∧
  hasRealUpdatesRef (onmessage "09:00:02" data st) = true.
Proof.
  cbv zeta.
  assert (Hframe : stageFrame "REMEDIATION_COMPLETE"
    (VObj [ ("status", VStr "REMEDIATION_COMPLETE");
            ("findings",
             VObj [ ("remediation",
                     VObj [ ("needs_remediation", VBool true);
                            ("recommendations",
                             VArr [VObj [("action", VStr "Ask the manager")]; VNull]) ]) ]) ]))
    by (split; reflexivity).
  split; [exact Hframe|].
  refine (proj2 (X10_malformed_remediation "09:00:02" _
    (Examples.streaming (Examples.imageFile "receipt.jpg")) Hframe eq_refl eq_refl _)).
  simpl. exists VNull. split; [|reflexivity].
  apply list_elem_of_further, list_elem_of_here.
Defined.

(** X11 applied: a subtotal is read as the total. *)
Lemma X11_total_has_no_word_boundary_witness :
  occurrences "t" "Sub" = 0 ∧ occurrences "T" "Sub" = 0 ∧
  totalMatch ("Sub" +:+ "total: $30.00") = totalMatch "total: $30.00".
Proof.
  split; [reflexivity|]. split; [reflexivity|].
  exact (X11_total_has_no_word_boundary "Sub" "total: $30.00" eq_refl eq_refl).
Defined.

(** X12 applied: a total with a comma. *)
Lemma X12_total_group_shape_witness :
  totalMatch "Total: $1,234.50 paid" = Some "1,234.50" ∧
  occurrences "." "1,234.50" ≤ 1.
Proof.
  assert (Hmatch : totalMatch "Total: $1,234.50 paid" = Some "1,234.50")
    by (vm_compute; reflexivity).
  split; [exact Hmatch|].
  exact (proj2 (proj2 (X12_total_group_shape _ _ Hmatch))).
Defined.

(** X13 applied: a group with two commas, and one without. *)
Lemma X13_first_comma_only_witness :
  occurrences "," (dropFirstComma "1,234,567") = occurrences "," "1,234,567" - 1 ∧
  occurrences "," "12.00" = 0 ∧ dropFirstComma "12.00" = "12.00".
Proof.
  split; [exact (proj1 (X13_first_comma_only "1,234,567"))|].
  split; [reflexivity|].
  exact (proj2 (X13_first_comma_only "12.00") eq_refl).
Defined.

(** X14 applied: an image whose bytes name Starbucks. *)
Lemma X14_images_are_not_read_witness :
  isImage (Some (mkFile "scan.png" "image/png" (Some "Starbucks Total: $12.00"))) = true ∧
  steps (Some (mkFile "scan.png" "image/png" (Some "Starbucks Total: $12.00"))) 0
  = steps (Some (mkFile "scan.png" "image/png" None)) 0.
Proof.
  split; [reflexivity|].
  exact (proj1 (X14_images_are_not_read "scan.png" "image/png"
                  (Some "Starbucks Total: $12.00") None 0) eq_refl).
Defined.

(** X15 applied: a receipt with wine, and one of Uber that names a bar. *)
Lemma X15_rejected_only_for_bar_witness :
  policyResult (verdict (Examples.textFile "receipt.txt" "2 x WINE Total: $42.10"))
  = "rejected" ∧
  policyResult (verdict (Examples.textFile "uber.txt" "Ride to the wine bar"))
  ≠ "rejected".
Proof.
  split.
  - apply (proj2 (X15_rejected_only_for_bar
             (Examples.textFile "receipt.txt" "2 x WINE Total: $42.10"))).
    repeat split.
  - intros Hrejected.
    apply (proj1 (X15_rejected_only_for_bar
             (Examples.textFile "uber.txt" "Ride to the wine bar"))) in Hrejected.
    destruct Hrejected as (_ & Huber & _). vm_compute in Huber. discriminate.
Defined.

(** X16 applied: a coffee receipt of 62.00. *)
Lemma X16_flagged_is_approved_witness :
  let receipt := Examples.textFile "starbucks.txt" "Total: $62.00" in
  isStarbucks receipt = true ∧
  number_gt (parseFloat (amount receipt)) (number_of_nat 50) = true ∧
  policyResult (verdict receipt) = "flagged" ∧
  steps receipt 2 !! 7 =
    Some (mkStep "Remediation Agent" "complete"
            "✅ No issues found. Approved for reimbursement." 10500).
Proof.
  split; [reflexivity|]. split; [reflexivity|].
  destruct (X16_flagged_is_approved (rt := Cents.runtime)
    (Examples.textFile "starbucks.txt" "Total: $62.00") 2 eq_refl eq_refl)
    as (Hflagged & _ & Hremedy & _).
  split; [exact Hflagged|exact Hremedy].
Defined.

(** X17 applied: a message that holds bars. *)
Lemma X17_key_identifies_notification_witness :
  occurrences "|" "Policy Agent" = 0 ∧ occurrences "|" "complete" = 0 ∧
  update_key "Policy Agent" "complete" "a|b|c" = update_key "Policy Agent" "complete" "a|b|c" ∧
  "a|b|c" = "a|b|c".
Proof.
  split; [reflexivity|]. split; [reflexivity|]. split; [reflexivity|].
  exact (proj2 (proj2 (X17_key_identifies_notification
    "Policy Agent" "complete" "a|b|c" "Policy Agent" "complete" "a|b|c"
    eq_refl eq_refl eq_refl eq_refl eq_refl))).
Defined.

(** X18 applied: the first submission of a page. *)
Lemma X18_submit_starts_clean_witness :
  let prev := Examples.page (Examples.imageFile "receipt.jpg") in
  let st := handleSubmit "09:00:00" "09:00:01" (Uploaded "0123456789abcdef") prev in
  file prev = Some (mkFile "receipt.jpg" "image/jpeg" None) ∧
  length (updates st) = 2 ∧ mode st = NoMode ∧
  timers st = timers prev ++ [mkTimer 30000 Watchdog].
Proof.
  split; [reflexivity|].
  destruct (X18_submit_starts_clean (rt := Cents.runtime)
    (Examples.page (Examples.imageFile "receipt.jpg"))
    (mkFile "receipt.jpg" "image/jpeg" None) "09:00:00" "09:00:01" "0123456789abcdef"
    eq_refl) as (Hlog & _ & _ & _ & Hmode & _ & _ & Htimers).
  split; [by rewrite Hlog|]. split; [exact Hmode|exact Htimers].
Defined.

(** X19 applied: an upload answered with status 500. *)
Lemma X19_failed_upload_page_witness :
  let st := handleSubmit "09:00:00" "09:00:01" (UploadNotOk "Internal Server Error")
              (Examples.page (Examples.textFile "receipt.txt" "Total: $12.00")) in
  showsActivity st = false ∧ showsReady st = true ∧ length (updates st) = 2 ∧
  error st = Some ("Upload failed: " +:+ "Internal Server Error").
Proof.
  destruct (X19_failed_upload_page (rt := Cents.runtime)
    (Examples.page (Examples.textFile "receipt.txt" "Total: $12.00"))
    (mkFile "receipt.txt" "text/plain" (Some "Total: $12.00"))
    "09:00:00" "09:00:01" (UploadNotOk "Internal Server Error") eq_refl)
    as (Hactivity & Hready & _ & _ & Hlog & Herror).
  - intros id. discriminate.
  - by repeat split.
Defined.


(** X21 applied: an extraction that holds a [null] amount and nothing else. *)
Lemma X21_extracted_defaults_witness :
  let data :=
    VObj [ ("status", VStr "EXTRACTED");
           ("findings", VObj [("extraction", VObj [("total_amount", VNull)])]) ] in
  let st := Examples.streaming (Examples.imageFile "receipt.jpg") in
  isFinite NaN = false ∧ stageFrame "EXTRACTED" data ∧
  onmessage "09:00:02" data st =
    pushUpdate "09:00:02" "Extraction Agent" "complete"
      ("✅ Vision analysis complete: Merchant=" +:+ dquote +:+ "Unknown" +:+ dquote
       +:+ ", Amount=$0.00, Category=" +:+ dquote +:+ "General" +:+ dquote)
      (markRealUpdate st).
Proof.
  cbv zeta.
  assert (Hframe : stageFrame "EXTRACTED"
    (VObj [ ("status", VStr "EXTRACTED");
            ("findings", VObj [("extraction", VObj [("total_amount", VNull)])]) ]))
    by (split; reflexivity).
  split; [reflexivity|]. split; [exact Hframe|].
  apply (X21_extracted_defaults (rt := Cents.runtime) "09:00:02" _
    (Examples.streaming (Examples.imageFile "receipt.jpg")) eq_refl Hframe);
    try reflexivity; intros ?; discriminate.
Defined.

(** X22 applied: an error of the stream one second after the upload. *)
Lemma X22_failed_stream_runs_fallback_witness :
  let prev := Examples.page (Examples.imageFile "receipt-starbucks.jpg") in
  let nows := [ "09:00:04"; "09:00:06"; "09:00:07"; "09:00:10"; "09:00:10";
                "09:00:12"; "09:00:12"; "09:00:13"; "09:00:14"; "09:00:16" ] in
  let st := run (("09:00:02", StreamError) :: ("09:00:03", TimerFires 1 3)
                 :: ((λ now, (now, TimerFires 1 0)) <$> nows))
              (handleSubmit "09:00:00" "09:00:01" (Uploaded "0123456789abcdef") prev) in
  length nows = 10 ∧ loading st = false ∧ mode st = Demo ∧
  timers st = [mkTimer 30000 Watchdog].
Proof.
  split; [reflexivity|].
  destruct (X22_failed_stream_runs_fallback (rt := Cents.runtime)
    (Examples.page (Examples.imageFile "receipt-starbucks.jpg"))
    (mkFile "receipt-starbucks.jpg" "image/jpeg" None)
    "09:00:00" "09:00:01" "0123456789abcdef" StreamError "09:00:02" "09:00:03" 3
    [ "09:00:04"; "09:00:06"; "09:00:07"; "09:00:10"; "09:00:10";
      "09:00:12"; "09:00:12"; "09:00:13"; "09:00:14"; "09:00:16" ]
    eq_refl eq_refl (or_introl eq_refl) eq_refl) as (_ & Hl & Hm & _ & Ht & _).
  split; [exact Hl|]. split; [exact Hm|exact Ht].
Defined.

(** X23 applied: a rejection with a summary. *)
Lemma X23_summary_hides_status_witness :
  let data :=
    VObj [ ("status", VStr "REJECTED");
           ("findings",
            VObj [("synthesis", VObj [("summary", VStr "Alcohol is not reimbursable")])]) ] in
  let st := Examples.streaming (Examples.imageFile "receipt.jpg") in
  "Alcohol is not reimbursable" ≠ EmptyString ∧
  onmessage "09:00:02" data st =
    close (setLoading false
      (pushUpdate "09:00:02" "Synthesis Agent" "complete"
         ("🎉 " +:+ "Alcohol is not reimbursable") (markRealUpdate st))).
Proof.
  assert (Hne : "Alcohol is not reimbursable" ≠ EmptyString) by discriminate.
  split; [exact Hne|].
  apply (X23_summary_hides_status (rt := Cents.runtime) "09:00:02" _ _ "REJECTED"
           "Alcohol is not reimbursable"); [reflexivity|reflexivity|exact Hne|].
  left. split; [reflexivity|]. apply list_elem_of_further, list_elem_of_here.
Defined.

(** X24 applied: anomalies reported as a text. *)
Lemma X24_anomalies_not_listed_witness :
  let data :=
    VObj [ ("status", VStr "ANOMALY_CHECKED");
           ("findings",
            VObj [("anomaly", VObj [ ("anomalies_detected", VBool true);
                                     ("anomalies", VStr "duplicate receipt") ])]) ] in
  let st := Examples.streaming (Examples.imageFile "receipt.jpg") in
  stageFrame "ANOMALY_CHECKED" data ∧
  onmessage "09:00:02" data st = markRealUpdate st.
Proof.
  cbv zeta.
  assert (Hframe : stageFrame "ANOMALY_CHECKED"
    (VObj [ ("status", VStr "ANOMALY_CHECKED");
            ("findings",
             VObj [("anomaly", VObj [ ("anomalies_detected", VBool true);
                                      ("anomalies", VStr "duplicate receipt") ])]) ]))
    by (split; reflexivity).
  split; [exact Hframe|].
  apply (proj2 (X24_anomalies_not_listed (rt := Cents.runtime) "09:00:02" _
    (Examples.streaming (Examples.imageFile "receipt.jpg")) Hframe eq_refl eq_refl));
    [reflexivity|]. intros items. discriminate.
Defined.

(** ** Two scenarios of the specification, run on the model *)

(** Scenario A: an image named after Starbucks, a stream that never answers. *)
Example scenario_starbucks_image :
  let receipt := Examples.imageFile "receipt-starbucks.jpg" in
  merchant (verdict receipt) = "Starbucks" ∧
  category (verdict receipt) = "Meals & Refreshments" ∧
  amount receipt = "25.55" ∧
  policyResult (verdict receipt) = "approved".
Proof. vm_compute. by repeat split. Qed.

(** Scenario C: INGESTED, then an APPROVED verdict: two live notifications
    after the two of the upload, live mode, and no start of the fallback even
    when the watchdog fires. *)
Example scenario_live_verdict :
  let signals :=
    [ ("09:00:02", Message (Some (Examples.frame "INGESTED")));
      ("09:00:03", Message (Some (VObj [("status", VStr "APPROVED");
                                        ("finalStatus", VStr "APPROVED")])));
      ("09:00:31", TimerFires 0 0) ] in
  let st := run signals (Examples.streaming (Examples.imageFile "receipt.jpg")) in
  (λ u, (agent u, status u, message u)) <$> drop 2 (updates st) =
    [ ("Orchestrator", "processing", "Receipt ingested. Agents spinning up...");
      ("Synthesis Agent", "complete", "🎉 All checks passed.") ] ∧
  mode st = Live ∧ loading st = false ∧
  fallbackStarts signals (Examples.streaming (Examples.imageFile "receipt.jpg")) = 0.
Proof. vm_compute. by repeat split. Qed.
